(** * Focus tracker: the session, its two stores and the sign-in migration

    A shallow embedding of [public/app.js].  The four in-memory state
    variables, the IndexedDB object store, the Firestore collection and the
    [sessionStorage] slot are fields of one application state; every handler
    of the script is a function on that state.  What a handler reads from
    its environment (the clock, the server's timestamp, whether a storage
    request succeeds) is an argument of the handler.

    Numbers are JavaScript numbers holding integers (millisecond counts and
    epoch instants, far below 2^53), modelled as [Z]. *)

From Stdlib Require Import ZArith Lia String Ascii List.
From stdpp Require Import base option gmap strings pretty.
Import ListNotations.

Open Scope string_scope.
Open Scope Z_scope.

(** ** Data model *)

(** [currentState] is ['focus'], ['distract'] or [null]; [null] is [None]. *)
Inductive TrackState : Type :=
| focus
| distract.

(** The in-memory state variables of lines 8-11.  A [Date] object is the
    epoch instant it holds, in milliseconds. *)
Record Session : Type := mkSession {
  totalFocusedMs : Z;
  totalDistractedMs : Z;
  currentState : option TrackState;
  lastStateChangeTimestamp : option Z
}.

(** The value given to the [lastStateChangeTimestamp] field of a serialised
    state object: [null], the ISO-8601 text of an instant (kept as the
    instant: the [Date] constructor reads the same instant back from that
    text), or the [FieldValue.serverTimestamp()] sentinel. *)
Inductive TimestampField : Type :=
| TsNull
| TsISO (instant : Z)
| TsServer.

(** The object built by [getCurrentStateAsObject]. *)
Record StateObject : Type := mkStateObject {
  date : string;
  so_totalFocusedMs : Z;
  so_totalDistractedMs : Z;
  so_currentState : option TrackState;
  so_lastStateChangeTimestamp : TimestampField
}.

(** A Firestore document of the [records] collection.  A field that the
    document lacks (or holds [null]) is [None]. *)
Record CloudDoc : Type := mkCloudDoc {
  doc_date : option string;
  doc_totalFocusedMs : option Z;
  doc_totalDistractedMs : option Z;
  doc_currentState : option TrackState;
  doc_lastStateChangeTimestamp : option Z
}.

(** The object passed to [recordRef.set]: the outer [option] of a field says
    whether the object has that field at all. *)
Record CloudWrite : Type := mkCloudWrite {
  w_date : option string;
  w_totalFocusedMs : option Z;
  w_totalDistractedMs : option Z;
  w_currentState : option (option TrackState);
  w_lastStateChangeTimestamp : option TimestampField
}.

(** The object staged under the [sessionStorage] key ['dataToMigrate']
    (the slot holds its JSON text). *)
Record MigrationPayload : Type := mkMigrationPayload {
  mp_totalFocusedMs : Z;
  mp_totalDistractedMs : Z;
  mp_currentState : option TrackState
}.

(** [recordRef]: [users/<uid>/records/<date key>]. *)
Definition DocRef : Type := (string * string)%type.

(** The whole application state. [db] is [None] while IndexedDB is not open;
    the object store [dailyData] is keyed by the [date] field of its
    records.  [firestoreListener] is the subscription that is live, and
    [tickInterval] says whether the display timer runs.  [pendingReads]
    holds the date keys of the read requests of [handleLoggedOutUser] whose
    callback has not run yet, oldest first. *)
Record App : Type := mkApp {
  session : Session;
  currentUser : option string;
  firestoreListener : option DocRef;
  tickInterval : bool;
  db : option (gmap string StateObject);
  dataToMigrate : option MigrationPayload;
  firestore : gmap DocRef CloudDoc;
  pendingReads : list string
}.

Definition set_session (s : Session) (a : App) : App :=
  mkApp s (currentUser a) (firestoreListener a) (tickInterval a) (db a)
        (dataToMigrate a) (firestore a) (pendingReads a).
Definition set_currentUser (u : option string) (a : App) : App :=
  mkApp (session a) u (firestoreListener a) (tickInterval a) (db a)
        (dataToMigrate a) (firestore a) (pendingReads a).
Definition set_firestoreListener (l : option DocRef) (a : App) : App :=
  mkApp (session a) (currentUser a) l (tickInterval a) (db a)
        (dataToMigrate a) (firestore a) (pendingReads a).
Definition set_tickInterval (b : bool) (a : App) : App :=
  mkApp (session a) (currentUser a) (firestoreListener a) b (db a)
        (dataToMigrate a) (firestore a) (pendingReads a).
Definition set_db (d : option (gmap string StateObject)) (a : App) : App :=
  mkApp (session a) (currentUser a) (firestoreListener a) (tickInterval a) d
        (dataToMigrate a) (firestore a) (pendingReads a).
Definition set_dataToMigrate (p : option MigrationPayload) (a : App) : App :=
  mkApp (session a) (currentUser a) (firestoreListener a) (tickInterval a)
        (db a) p (firestore a) (pendingReads a).
Definition set_firestore (f : gmap DocRef CloudDoc) (a : App) : App :=
  mkApp (session a) (currentUser a) (firestoreListener a) (tickInterval a)
        (db a) (dataToMigrate a) f (pendingReads a).
Definition set_pendingReads (l : list string) (a : App) : App :=
  mkApp (session a) (currentUser a) (firestoreListener a) (tickInterval a)
        (db a) (dataToMigrate a) (firestore a) l.

(** ** Dates: [Date.prototype.toISOString] and [getTodayKey] *)

Definition msPerDay : Z := 86400000.

(** Day number and time within the day of an epoch instant (floor
    division, as in the language definition). *)
Definition Day (t : Z) : Z := t / msPerDay.
Definition TimeWithinDay (t : Z) : Z := t mod msPerDay.

(** Proleptic Gregorian (year, month, day of month) of a day number counted
    from 1970-01-01. *)
Definition civil_from_days (days : Z) : Z * Z * Z :=
  let z := days + 719468 in
  let era := z / 146097 in
  let doe := z - era * 146097 in
  let yoe := (doe - doe / 1460 + doe / 36524 - doe / 146096) / 365 in
  let y := yoe + era * 400 in
  let doy := doe - (365 * yoe + yoe / 4 - yoe / 100) in
  let mp := (5 * doy + 2) / 153 in
  let d := doy - (153 * mp + 2) / 5 + 1 in
  let m := if mp <? 10 then mp + 3 else mp - 9 in
  (if m <=? 2 then y + 1 else y, m, d).

Definition YearFromTime (t : Z) : Z := fst (fst (civil_from_days (Day t))).
Definition MonthFromTime (t : Z) : Z := snd (fst (civil_from_days (Day t))).
Definition DateFromTime (t : Z) : Z := snd (civil_from_days (Day t)).

Definition digitChar (d : Z) : ascii := ascii_of_nat (48 + Z.to_nat d).

(** The [k] low decimal digits of [n], zero padded. *)
Fixpoint zeroPad (k : nat) (n : Z) : string :=
  match k with
  | O => ""
  | S k' => zeroPad k' (n / 10) +:+ String (digitChar (n mod 10)) ""
  end.

(** Years 0 to 9999 print as four digits, the others as a sign and six. *)
Definition isoYear (y : Z) : string :=
  if (0 <=? y) && (y <=? 9999) then zeroPad 4 y
  else (if y <? 0 then "-" else "+") +:+ zeroPad 6 (Z.abs y).

Definition isoDate (y m d : Z) : string :=
  isoYear y +:+ "-" +:+ zeroPad 2 m +:+ "-" +:+ zeroPad 2 d.

Definition toISOString (t : Z) : string :=
  let tod := TimeWithinDay t in
  isoDate (YearFromTime t) (MonthFromTime t) (DateFromTime t)
  +:+ "T" +:+ zeroPad 2 (tod / 3600000)
  +:+ ":" +:+ zeroPad 2 (tod / 60000 mod 60)
  +:+ ":" +:+ zeroPad 2 (tod / 1000 mod 60)
  +:+ "." +:+ zeroPad 3 (tod mod 1000)
  +:+ "Z".

(** [getTodayKey]; [now] is the instant [new Date()] holds. *)
Definition getTodayKey (now : Z) : string :=
  substring 0 10 (toISOString now).

(** The date key as the specification words it: the calendar day of the
    instant in the device's local time zone, [tza] being the zone's
    offset from UTC in milliseconds (local time = instant + offset). *)
Definition spec_localDateKey (tza : Z) (now : Z) : string :=
  let lt := now + tza in
  isoDate (YearFromTime lt) (MonthFromTime lt) (DateFromTime lt).

(** ** Display *)

(** [String(n)] for an integer. *)
Definition js_String (n : Z) : string := pretty n.

Fixpoint repeatChar (n : nat) (c : ascii) : string :=
  match n with
  | O => ""
  | S n' => String c (repeatChar n' c)
  end.

(** [s.padStart(n, c)] with a one-character pad. *)
Definition padStart (n : nat) (c : ascii) (s : string) : string :=
  repeatChar (n - String.length s) c +:+ s.

Definition formatTime (ms : Z) : string :=
  let ms := if ms <? 0 then 0 else ms in
  let s := ms / 1000 in
  padStart 2 "0" (js_String (s / 3600))
  +:+ ":" +:+ padStart 2 "0" (js_String (Z.rem s 3600 / 60))
  +:+ ":" +:+ padStart 2 "0" (js_String (Z.rem s 60)).

(** The two totals [updateDisplay] derives (lines 219-226); [now] is
    [Date.now()].  Nothing is stored. *)
Definition displayTotals (now : Z) (s : Session) : Z * Z :=
  match currentState s, lastStateChangeTimestamp s with
  | Some st, Some ts =>
      let elapsed := now - ts in
      (match st with focus => totalFocusedMs s + elapsed
                   | distract => totalFocusedMs s end,
       match st with distract => totalDistractedMs s + elapsed
                   | focus => totalDistractedMs s end)
  | _, _ => (totalFocusedMs s, totalDistractedMs s)
  end.

(** What [updateDisplay] hands to the page: the two formatted times and the
    state given to [setVisualState].  (The percentage, a floating point
    quotient printed by [toFixed], is left out.) *)
Definition updateDisplay (now : Z) (s : Session) : string * string * option TrackState :=
  let '(displayFocus, displayDistract) := displayTotals now s in
  (formatTime displayFocus, formatTime displayDistract, currentState s).

(** ** Utility functions *)

(** [x || 0] on a number field that may be missing. *)
Definition orZero (x : option Z) : Z := default 0 x.

Definition emptySession : Session := mkSession 0 0 None None.

Definition resetStateInMemory (a : App) : App := set_session emptySession a.

(** [startTick]: the timer held by [tickInterval] is cleared and a new one
    is started. *)
Definition startTick (a : App) : App := set_tickInterval true a.

(** [getCurrentStateAsObject(forLocalDb, forFirestore)]; [tKey] is the
    instant of its [getTodayKey()] call. *)
Definition getCurrentStateAsObject (forLocalDb forFirestore : bool)
    (tKey : Z) (s : Session) : StateObject :=
  let ts0 := TsNull in
  let ts1 := if forLocalDb
             then match lastStateChangeTimestamp s with
                  | Some t => TsISO t
                  | None => ts0
                  end
             else ts0 in
  let ts2 := if forFirestore then TsServer else ts1 in
  mkStateObject (getTodayKey tKey) (totalFocusedMs s) (totalDistractedMs s)
                (currentState s) ts2.

(** ** The two stores *)

(** A state object handed to Firestore has all five fields. *)
Definition toCloudWrite (o : StateObject) : CloudWrite :=
  mkCloudWrite (Some (date o)) (Some (so_totalFocusedMs o))
               (Some (so_totalDistractedMs o)) (Some (so_currentState o))
               (Some (so_lastStateChangeTimestamp o)).

(** The server replaces the sentinel by its own clock value [srvNow]. *)
Definition resolveTimestamp (srvNow : Z) (f : TimestampField) : option Z :=
  match f with
  | TsNull => None
  | TsISO t => Some t
  | TsServer => Some srvNow
  end.

Definition emptyDoc : CloudDoc := mkCloudDoc None None None None None.

(** The document that [set(w)] or [set(w, {merge: true})] leaves: with
    merge, a field the written object lacks keeps its old value. *)
Definition applyWrite (merge : bool) (srvNow : Z) (w : CloudWrite)
    (old : option CloudDoc) : CloudDoc :=
  let base := if merge then default emptyDoc old else emptyDoc in
  mkCloudDoc
    (match w_date w with Some d => Some d | None => doc_date base end)
    (match w_totalFocusedMs w with
     | Some v => Some v | None => doc_totalFocusedMs base end)
    (match w_totalDistractedMs w with
     | Some v => Some v | None => doc_totalDistractedMs base end)
    (match w_currentState w with
     | Some v => v | None => doc_currentState base end)
    (match w_lastStateChangeTimestamp w with
     | Some f => resolveTimestamp srvNow f
     | None => doc_lastStateChangeTimestamp base end).

(** A [recordRef.set] that the server accepted. *)
Definition recordRef_set (ref : DocRef) (w : CloudWrite) (merge : bool)
    (srvNow : Z) (a : App) : App :=
  set_firestore
    (<[ref := applyWrite merge srvNow w (firestore a !! ref)]> (firestore a)) a.

(** [deleteLocalRecord(dateKey)]; [delOk] says whether the transaction
    completes ([false]: the promise rejects and the record stays). *)
Definition deleteLocalRecord (dateKey : string) (delOk : bool) (a : App) : App :=
  match db a with
  | None => a
  | Some store =>
      if delOk then set_db (Some (delete dateKey store)) a else a
  end.

(** The record of a date key as the local store answers for it. *)
Definition localRecord (dateKey : string) (a : App) : option StateObject :=
  match db a with
  | None => None
  | Some store => store !! dateKey
  end.

(** ** Logged-out user: the local record is adopted *)

(** Lines 92-95 on a record read from IndexedDB (the records of the store
    are written by [put] on line 165: their timestamp is an ISO text or
    [null]). *)
Definition adoptLocal (data : StateObject) : Session :=
  mkSession (so_totalFocusedMs data) (so_totalDistractedMs data)
            (so_currentState data)
            (match so_lastStateChangeTimestamp data with
             | TsISO t => Some t
             | _ => None
             end).

(** [handleLoggedOutUser]: without a database the timer is started; with
    one, the record of today's key is requested and the function
    returns. *)
Definition handleLoggedOutUser (tKey : Z) (a : App) : App :=
  match db a with
  | None => startTick a
  | Some _ => set_pendingReads (pendingReads a ++ [getTodayKey tKey]) a
  end.

(** The callbacks of that request (lines 89-102), run when the oldest
    pending request is answered: [readOk] chooses between [onsuccess], which
    gets the record the store holds for the key, and [onerror].  The store
    is looked up when the callback runs; that is the record the request
    found as long as the page has not written the local record of that key
    between the request and its answer (IndexedDB serves the request before
    a write issued after it). *)
Definition localReadResult (readOk : bool) (a : App) : App :=
  match pendingReads a with
  | [] => a
  | dateKey :: rest =>
      let a1 := set_pendingReads rest a in
      if readOk then
        match localRecord dateKey a1 with
        | Some data => startTick (set_session (adoptLocal data) a1)
        | None => startTick a1
        end
      else startTick a1
  end.

(** ** Logged-in user: the snapshot listener *)

(** Lines 131-134 on the data of a snapshot. *)
Definition adoptCloud (serverData : CloudDoc) : Session :=
  mkSession (orZero (doc_totalFocusedMs serverData))
            (orZero (doc_totalDistractedMs serverData))
            (doc_currentState serverData)
            (doc_lastStateChangeTimestamp serverData).

(** Lines 118-123. *)
Definition migratedData (serverData : option CloudDoc)
    (p : MigrationPayload) : CloudWrite :=
  mkCloudWrite None
    (Some (orZero (serverData ≫= doc_totalFocusedMs) + mp_totalFocusedMs p))
    (Some (orZero (serverData ≫= doc_totalDistractedMs)
           + mp_totalDistractedMs p))
    (Some (mp_currentState p))
    (Some TsServer).

(** The migration branch of the snapshot callback (lines 115-127), taken
    with the staged payload [p].  [setOk] and [delOk] say whether the
    awaited [set] and the awaited [deleteLocalRecord] succeed; a rejected
    promise ends the callback there. *)
Definition snapshotMigrate (ref : DocRef) (serverData : option CloudDoc)
    (p : MigrationPayload) (tKey srvNow : Z) (setOk delOk : bool)
    (a : App) : App :=
  let a1 := set_dataToMigrate None a in
  let w := migratedData serverData p in
  if setOk
  then deleteLocalRecord (getTodayKey tKey) delOk
         (recordRef_set ref w true srvNow a1)
  else a1.

(** The rest of the callback (lines 130-140): the snapshot is adopted, or
    an initial document is written when there is none. *)
Definition snapshotAdopt (ref : DocRef) (serverData : option CloudDoc)
    (tKey srvNow : Z) (setOk : bool) (a : App) : App :=
  match serverData with
  | Some d => startTick (set_session (adoptCloud d) a)
  | None =>
      if setOk
      then startTick
             (recordRef_set ref
                (toCloudWrite
                   (getCurrentStateAsObject false true tKey (session a)))
                false srvNow a)
      else a
  end.

(** The callback given to [recordRef.onSnapshot] (lines 109-141), run on a
    snapshot whose [doc.data()] is [serverData]. *)
Definition onSnapshot (ref : DocRef) (serverData : option CloudDoc)
    (tKey srvNow : Z) (setOk delOk : bool) (a : App) : App :=
  match dataToMigrate a with
  | Some p => snapshotMigrate ref serverData p tKey srvNow setOk delOk a
  | None => snapshotAdopt ref serverData tKey srvNow setOk a
  end.

(** [handleLoggedInUser]: the listener is attached to today's document of
    the user. *)
Definition handleLoggedInUser (uid : string) (tKey : Z) (a : App) : App :=
  set_firestoreListener (Some (uid, getTodayKey tKey)) a.

(** ** The authentication router *)

Definition handleAuthStateChange (user : option string) (tKey : Z)
    (a : App) : App :=
  let a1 := set_firestoreListener None a in
  let a2 := set_tickInterval false a1 in
  let a3 := resetStateInMemory a2 in
  let a4 := set_currentUser user a3 in
  match user with
  | Some uid => handleLoggedInUser uid tKey a4
  | None => handleLoggedOutUser tKey a4
  end.

(** ** User actions *)

(** Lines 149-153: the open interval is added to the bucket of the state
    that ends; [now] is [Date.now()]. *)
Definition foldElapsed (now : Z) (s : Session) : Session :=
  match currentState s, lastStateChangeTimestamp s with
  | Some st, Some ts =>
      let elapsed := now - ts in
      mkSession
        (match st with focus => totalFocusedMs s + elapsed
                     | distract => totalFocusedMs s end)
        (match st with distract => totalDistractedMs s + elapsed
                     | focus => totalDistractedMs s end)
        (currentState s) (lastStateChangeTimestamp s)
  | _, _ => s
  end.

(** [handleStateChange(newState)].  [now] is the value of [Date.now()] on
    line 150, [stamp] the instant of [new Date()] on line 156 and [tKey]
    the instant of the [getTodayKey()] calls that follow; [setOk] says
    whether the write to the store in charge succeeds. *)
Definition handleStateChange (newState : option TrackState)
    (now stamp tKey srvNow : Z) (setOk : bool) (a : App) : App :=
  let s1 := foldElapsed now (session a) in
  let s2 := mkSession (totalFocusedMs s1) (totalDistractedMs s1)
                      newState (Some stamp) in
  let a2 := set_session s2 a in
  match currentUser a2 with
  | Some uid =>
      if setOk
      then recordRef_set (uid, getTodayKey tKey)
             (toCloudWrite (getCurrentStateAsObject false true tKey s2))
             true srvNow a2
      else a2
  | None =>
      match db a2 with
      | None => a2
      | Some store =>
          let o := getCurrentStateAsObject true false tKey s2 in
          if setOk then set_db (Some (<[date o := o]> store)) a2 else a2
      end
  end.

(** The object that the sign-in click stages for a local record (lines
    183-185). *)
Definition payloadOf (localData : StateObject) : MigrationPayload :=
  mkMigrationPayload (so_totalFocusedMs localData)
                     (so_totalDistractedMs localData)
                     (so_currentState localData).

(** The click handler of the sign-in button up to the call of the
    authentication provider (lines 172-191); [readOk] says whether the
    read of the local record succeeds. *)
Definition signInClick (tKey : Z) (readOk : bool) (a : App) : App :=
  match db a with
  | None => a
  | Some store =>
      if readOk then
        match store !! getTodayKey tKey with
        | Some localData =>
            if (0 <? so_totalFocusedMs localData)
               || (0 <? so_totalDistractedMs localData)
            then set_dataToMigrate (Some (payloadOf localData)) a
            else a
        | None => a
        end
      else a
  end.

(** ** Opening the database *)

(** The handlers that [initializeApp] gives to the request opening
    IndexedDB: [result] is the object store found ([None]: the request
    failed and the page runs in memory only).  The local record is loaded
    when no user is known. *)
Definition dbOpenResult (result : option (gmap string StateObject))
    (tKey : Z) (a : App) : App :=
  let a1 := match result with
            | Some store => set_db (Some store) a
            | None => a
            end in
  match currentUser a1 with
  | None => handleLoggedOutUser tKey a1
  | Some _ => a1
  end.

(** ** Events *)

(** What can happen to the running page.  A snapshot is delivered only to
    a live listener; a display tick stores nothing. *)
Inductive Event : Type :=
| EvAuthStateChange (user : option string) (tKey : Z)
| EvLocalReadResult (readOk : bool)
| EvSnapshot (serverData : option CloudDoc) (tKey srvNow : Z)
             (setOk delOk : bool)
| EvStateChange (newState : option TrackState) (now stamp tKey srvNow : Z)
                (setOk : bool)
| EvSignInClick (tKey : Z) (readOk : bool)
| EvDbOpenResult (result : option (gmap string StateObject)) (tKey : Z)
| EvTick (now : Z).

Definition step (e : Event) (a : App) : App :=
  match e with
  | EvAuthStateChange user tKey => handleAuthStateChange user tKey a
  | EvLocalReadResult readOk => localReadResult readOk a
  | EvSnapshot serverData tKey srvNow setOk delOk =>
      match firestoreListener a with
      | Some ref => onSnapshot ref serverData tKey srvNow setOk delOk a
      | None => a
      end
  | EvStateChange newState now stamp tKey srvNow setOk =>
      handleStateChange newState now stamp tKey srvNow setOk a
  | EvSignInClick tKey readOk => signInClick tKey readOk a
  | EvDbOpenResult result tKey => dbOpenResult result tKey a
  | EvTick _ => a
  end.

Definition run (evs : list Event) (a : App) : App :=
  fold_left (fun acc e => step e acc) evs a.

(** A transition made at one instant [t]: both clock reads of
    [handleStateChange] give [t]. *)
Definition transitionAt (newState : option TrackState) (t : Z)
    (srvNow : Z) (setOk : bool) (a : App) : App :=
  handleStateChange newState t t t srvNow setOk a.

(** A sequence of transitions, each at its own instant. *)
Fixpoint transitions (l : list (option TrackState * Z)) (srvNow : Z)
    (setOk : bool) (a : App) : App :=
  match l with
  | [] => a
  | (st, t) :: l' => transitions l' srvNow setOk (transitionAt st t srvNow setOk a)
  end.

(** The page as the script finds it: nothing in memory, no user, no
    database yet, an empty slot and an empty collection. *)
Definition initialApp : App :=
  mkApp emptySession None None false None None ∅ [].




(** The clock of a sequence of transitions never reads less than it read at
    the transition before ([tp]: the instant before the first one). *)
Fixpoint nondecreasingFrom (tp : Z) (l : list (option TrackState * Z)) : Prop :=
  match l with
  | [] => True
  | (_, t) :: l' => tp <= t /\ nondecreasingFrom t l'
  end.

Definition clockNeverBackward (s : Session)
    (l : list (option TrackState * Z)) : Prop :=
  match lastStateChangeTimestamp s, l with
  | Some ts, _ => nondecreasingFrom ts l
  | None, (_, t) :: l' => nondecreasingFrom t l'
  | None, [] => True
  end.







(** Two pages that agree on everything but the local store. *)
Definition sameButLocalStore (a1 a2 : App) : Prop :=
  session a1 = session a2
  /\ currentUser a1 = currentUser a2
  /\ firestoreListener a1 = firestoreListener a2
  /\ tickInterval a1 = tickInterval a2
  /\ dataToMigrate a1 = dataToMigrate a2
  /\ firestore a1 = firestore a2
  /\ pendingReads a1 = pendingReads a2.

(** What can happen while one user stays signed in: snapshots, state
    changes, answers to local reads and display ticks (the sign-in button
    is hidden, and a change of identity ends the stay). *)
Definition signedInEvent (e : Event) : Prop :=
  match e with
  | EvSnapshot _ _ _ _ _ | EvStateChange _ _ _ _ _ _
  | EvLocalReadResult _ | EvTick _ => True
  | _ => False
  end.

(** ** Further vocabulary *)

(** Whether [st] is the state [b]. *)
Definition sameState (b : TrackState) (st : option TrackState) : bool :=
  match st, b with
  | Some focus, focus | Some distract, distract => true
  | _, _ => false
  end.

(** The time that a sequence of transitions spends in state [b], the
    state being [st] since instant [tp] when the sequence starts. *)
Fixpoint stateMs (b : TrackState) (st : option TrackState) (tp : Z)
    (l : list (option TrackState * Z)) : Z :=
  match l with
  | [] => 0
  | (st', t') :: l' =>
      (if sameState b st then t' - tp else 0) + stateMs b st' t' l'
  end.

(** The listener, when there is one, is attached to a document of the
    current user, and a signed-in user has one. *)
Definition listenerMatchesUser (a : App) : Prop :=
  match currentUser a with
  | Some uid => exists dateKey, firestoreListener a = Some (uid, dateKey)
  | None => firestoreListener a = None
  end.

(** The day number that a civil date stands for: the inverse of
    [civil_from_days], used to tell date keys apart. *)
Definition days_from_civil (y m d : Z) : Z :=
  let y' := if m <=? 2 then y - 1 else y in
  let era := y' / 400 in
  let yoe := y' - era * 400 in
  let mp := if 2 <? m then m - 3 else m + 9 in
  let doy := (153 * mp + 2) / 5 + d - 1 in
  let doe := yoe * 365 + yoe / 4 - yoe / 100 + doy in
  era * 146097 + doe - 719468.

(** ** Sample pages *)

(** A page with a staged payload and its local record, signed in as [u1]. *)
Definition stagedApp : App :=
  mkApp emptySession (Some "u1") (Some ("u1", "2024-01-02")) false
        (Some {["2024-01-02" :=
                  mkStateObject "2024-01-02" 50 0 (Some focus) (TsISO 1704169800000)]})
        (Some (mkMigrationPayload 50 0 (Some focus)))
        {[("u1", "2024-01-02") :=
            mkCloudDoc (Some "2024-01-02") (Some 100) (Some 200)
                       (Some distract) (Some 1704160000000)]}
        [].

(** An anonymous page that tracked (60000, 30000) and staged nothing. *)
Definition anonymousApp : App :=
  mkApp (mkSession 60000 30000 (Some distract) (Some 1704169800000))
        None None true None None ∅ [].

(** An anonymous page whose local record of the day is all zero. *)
Definition zeroRecordApp : App :=
  mkApp emptySession None None true
        (Some {["2024-01-02" :=
                  mkStateObject "2024-01-02" 0 0 None (TsISO 1704169800000)]})
        None ∅ [].

(** * Properties *)

(** ** Two runs of the page *)

(** Anonymous, focus at 0 and distract at 60000: the session and the local
    record are (60000, 0, distract, 60000), and at 90000 the display shows
    one minute of focus and thirty seconds of distraction. *)
Example scenario_focus_then_distract :
  let a := run [EvDbOpenResult (Some ∅) 0;
                EvLocalReadResult true;
                EvStateChange (Some focus) 0 0 0 0 true;
                EvStateChange (Some distract) 60000 60000 60000 0 true]
               initialApp in
  session a = mkSession 60000 0 (Some distract) (Some 60000)
  /\ localRecord "1970-01-01" a
     = Some (mkStateObject "1970-01-01" 60000 0 (Some distract) (TsISO 60000))
  /\ updateDisplay 90000 (session a)
     = ("00:01:00", "00:00:30", Some distract).
Proof. repeat split. Qed.

(** Sign-in with the payload (10000, 5000, focus) staged and no cloud
    record: the first snapshot is empty and the migration branch writes
    (10000, 5000, focus, server time). *)
Example scenario_migration_into_empty_cloud :
  let a0 := set_dataToMigrate (Some (mkMigrationPayload 10000 5000 (Some focus)))
              initialApp in
  let a := run [EvAuthStateChange (Some "u1") 1704169800000;
                EvSnapshot None 1704169800000 1704169800123 true true] a0 in
  firestore a !! ("u1", "2024-01-02")
  = Some (mkCloudDoc None (Some 10000) (Some 5000) (Some focus)
                     (Some 1704169800123))
  /\ dataToMigrate a = None.
Proof. repeat split. Qed.

(** ** What a handler does to the session *)

Section SessionLemmas.

Variables (newState : option TrackState) (now stamp tKey srvNow : Z)
          (setOk : bool) (a : App).

Lemma session_handleStateChange :
  session (handleStateChange newState now stamp tKey srvNow setOk a)
  = mkSession (totalFocusedMs (foldElapsed now (session a)))
              (totalDistractedMs (foldElapsed now (session a)))
              newState (Some stamp).
Proof.
  unfold handleStateChange. cbn.
  destruct (currentUser a), (db a), setOk; reflexivity.
Qed.

Lemma foldElapsed_totals :
  (totalFocusedMs (foldElapsed now (session a)),
   totalDistractedMs (foldElapsed now (session a)))
  = displayTotals now (session a).
Proof.
  unfold foldElapsed, displayTotals.
  destruct (currentState (session a)) as [[]|],
           (lastStateChangeTimestamp (session a)); reflexivity.
Qed.

End SessionLemmas.

Lemma foldElapsed_stopped now s :
  currentState s = None -> foldElapsed now s = s.
Proof. unfold foldElapsed. intros ->. reflexivity. Qed.


(** ** Displayed totals and the fold of a transition *)

(** C7. For every session and every clock value [now] (in particular every
    [now] not before [lastStateChangeTimestamp]), the two totals that
    [updateDisplay] derives are the stored totals that a transition made at
    [now] leaves, whatever the new state and whatever store is written. *)
Theorem displayed_totals_eq_fold :
  forall (a : App) (newState : option TrackState)
         (now stamp tKey srvNow : Z) (setOk : bool),
    let s' := session (handleStateChange newState now stamp tKey srvNow setOk a) in
    displayTotals now (session a) = (totalFocusedMs s', totalDistractedMs s').
Proof.
  intros a newState now stamp tKey srvNow setOk s'. subst s'.
  rewrite session_handleStateChange. cbn.
  symmetry. apply foldElapsed_totals.
Qed.

(** ** Stopping twice *)

(** C8. For every session and all clock values of the two calls (so also
    for [t1 <= t2]), a second [handleStateChange(null)] leaves both totals
    as the first one left them: the second call finds no running state and
    adds nothing. *)
Theorem stop_twice_same_totals :
  forall (a : App) (now1 stamp1 tKey1 srv1 now2 stamp2 tKey2 srv2 : Z)
         (ok1 ok2 : bool),
    let once := handleStateChange None now1 stamp1 tKey1 srv1 ok1 a in
    let twice := handleStateChange None now2 stamp2 tKey2 srv2 ok2 once in
    totalFocusedMs (session twice) = totalFocusedMs (session once)
    /\ totalDistractedMs (session twice) = totalDistractedMs (session once).
Proof.
  intros a now1 stamp1 tKey1 srv1 now2 stamp2 tKey2 srv2 ok1 ok2 once twice.
  subst twice. rewrite session_handleStateChange.
  rewrite foldElapsed_stopped; [split; reflexivity |].
  subst once. rewrite session_handleStateChange. reflexivity.
Qed.

(** ** Conservation of tracked time *)

Lemma session_transitionAt st t srvNow setOk a :
  session (transitionAt st t srvNow setOk a)
  = mkSession (totalFocusedMs (foldElapsed t (session a)))
              (totalDistractedMs (foldElapsed t (session a)))
              st (Some t).
Proof. apply session_handleStateChange. Qed.








(** ** Negative elapsed time *)

Lemma formatTime_clamps ms : formatTime ms = formatTime (Z.max 0 ms).
Proof.
  unfold formatTime.
  destruct (Z.ltb_spec ms 0) as [Hneg|Hpos].
  - rewrite Z.max_l by lia. reflexivity.
  - rewrite Z.max_r by lia.
    destruct (Z.ltb_spec ms 0); [lia | reflexivity].
Qed.






(** ** The timestamp of a running state *)





















(** ** Migration on sign-in *)

Lemma lookup_recordRef_set ref w merge srvNow a :
  firestore (recordRef_set ref w merge srvNow a) !! ref
  = Some (applyWrite merge srvNow w (firestore a !! ref)).
Proof. unfold recordRef_set. cbn. apply lookup_insert_eq. Qed.

Lemma firestore_deleteLocalRecord k delOk a :
  firestore (deleteLocalRecord k delOk a) = firestore a.
Proof.
  unfold deleteLocalRecord. destruct (db a); [destruct delOk |]; reflexivity.
Qed.

Lemma dataToMigrate_deleteLocalRecord k delOk a :
  dataToMigrate (deleteLocalRecord k delOk a) = dataToMigrate a.
Proof.
  unfold deleteLocalRecord. destruct (db a); [destruct delOk |]; reflexivity.
Qed.


(** C4, as amended. The staged payload is removed from the slot as soon as
    it is read, before the merge write is issued: whatever the outcomes of
    the write and of the local delete, the slot is empty when the callback
    ends.  If the merge write fails, neither the cloud collection nor the
    local store has changed, and the next snapshot is adopted as a plain
    snapshot: the migration is not tried again. *)
Theorem payload_cleared_before_merge_write :
  forall (a : App) (p : MigrationPayload) (ref : DocRef)
         (serverData : option CloudDoc) (tKey srvNow : Z)
         (setOk delOk : bool),
    dataToMigrate a = Some p ->
    let a' := onSnapshot ref serverData tKey srvNow setOk delOk a in
    dataToMigrate a' = None
    /\ (setOk = false -> firestore a' = firestore a /\ db a' = db a)
    /\ forall (next : option CloudDoc) (tKey' srvNow' : Z)
              (setOk' delOk' : bool),
         onSnapshot ref next tKey' srvNow' setOk' delOk' a'
         = snapshotAdopt ref next tKey' srvNow' setOk' a'.
Proof.
  intros a p ref serverData tKey srvNow setOk delOk Hp a'.
  assert (Hslot : dataToMigrate a' = None).
  { subst a'. unfold onSnapshot. rewrite Hp. unfold snapshotMigrate.
    destruct setOk; [| reflexivity].
    rewrite dataToMigrate_deleteLocalRecord. reflexivity. }
  split; [exact Hslot |]. split.
  - intros ->. subst a'. unfold onSnapshot. rewrite Hp.
    split; reflexivity.
  - intros next tKey' srvNow' setOk' delOk'.
    unfold onSnapshot at 1. rewrite Hslot. reflexivity.
Qed.

(** The merge write fails, and the payload is gone all the same. *)
Lemma payload_lost_when_merge_write_fails :
  dataToMigrate stagedApp = Some (mkMigrationPayload 50 0 (Some focus))
  /\ dataToMigrate
       (onSnapshot ("u1", "2024-01-02")
          (firestore stagedApp !! ("u1", "2024-01-02"))
          1704169900000 1704169900500 false true stagedApp)
     <> Some (mkMigrationPayload 50 0 (Some focus)).
Proof. split; [reflexivity |]. intros H. discriminate H. Qed.

Lemma payload_cleared_before_merge_write_witness :
  let a' := onSnapshot ("u1", "2024-01-02") None 1704169900000 1704169900500
              false true stagedApp in
  dataToMigrate a' = None
  /\ (false = false -> firestore a' = firestore stagedApp /\ db a' = db stagedApp)
  /\ forall (next : option CloudDoc) (tKey' srvNow' : Z) (setOk' delOk' : bool),
       onSnapshot ("u1", "2024-01-02") next tKey' srvNow' setOk' delOk' a'
       = snapshotAdopt ("u1", "2024-01-02") next tKey' srvNow' setOk' a'.
Proof.
  exact (payload_cleared_before_merge_write stagedApp
           (mkMigrationPayload 50 0 (Some focus)) ("u1", "2024-01-02") None
           1704169900000 1704169900500 false true eq_refl).
Defined.



(** ** Identity switch *)

Lemma handleAuthStateChange_signed_in uid tKey a :
  handleAuthStateChange (Some uid) tKey a
  = mkApp emptySession (Some uid) (Some (uid, getTodayKey tKey)) false
          (db a) (dataToMigrate a) (firestore a) (pendingReads a).
Proof. reflexivity. Qed.

Ltac same_but_local :=
  unfold sameButLocalStore; cbn; repeat split; congruence.

Lemma sameButLocalStore_step e uid a1 a2 :
  signedInEvent e ->
  sameButLocalStore a1 a2 ->
  currentUser a1 = Some uid -> dataToMigrate a1 = None -> pendingReads a1 = [] ->
  sameButLocalStore (step e a1) (step e a2)
  /\ currentUser (step e a1) = Some uid
  /\ dataToMigrate (step e a1) = None
  /\ pendingReads (step e a1) = [].
Proof.
  intros He (Hs & Hu & Hl & Ht & Hm & Hf & Hp) Huid Hslot Hpend.
  destruct e as [user tKey | readOk | serverData tKey srvNow setOk delOk
                | newState now stamp tKey srvNow setOk
                | tKey readOk | result tKey | now];
    cbn in He; try contradiction; cbn [step].
  - unfold localReadResult. rewrite <- Hp, Hpend. same_but_local.
  - rewrite <- Hl. destruct (firestoreListener a1) as [ref|] eqn:Href;
      [| same_but_local].
    unfold onSnapshot. rewrite <- Hm, Hslot. unfold snapshotAdopt.
    destruct serverData as [d|]; [| destruct setOk];
      unfold recordRef_set; rewrite <- ?Hs, <- ?Hf; same_but_local.
  - unfold handleStateChange. cbn [currentUser set_session].
    rewrite <- Hu, Huid, <- Hs.
    destruct setOk; unfold recordRef_set; rewrite <- ?Hf; same_but_local.
  - same_but_local.
Qed.

Lemma sameButLocalStore_run evs uid :
  forall a1 a2,
    Forall signedInEvent evs ->
    sameButLocalStore a1 a2 ->
    currentUser a1 = Some uid -> dataToMigrate a1 = None -> pendingReads a1 = [] ->
    sameButLocalStore (run evs a1) (run evs a2).
Proof.
  induction evs as [|e evs IH]; intros a1 a2 Hevs Hsame Hu Hm Hp;
    [exact Hsame |].
  inversion Hevs; subst. cbn.
  destruct (sameButLocalStore_step e uid a1 a2) as (Hsame' & Hu' & Hm' & Hp');
    try assumption.
  apply IH; assumption.
Qed.

(** What the reset on an identity change does give.  Let an anonymous
    session hold any totals, state and timestamp, and let no payload be
    staged.  When the identity becomes a signed-in user
    the in-memory session is the empty one before the listener is attached;
    two pages that differ only in their anonymous in-memory session are the
    same page from then on, whatever happens next; if they differ in their
    local store as well and no local read is outstanding, their sessions and
    cloud collections stay the same while the user is signed in; and the
    first snapshot either is adopted (the cloud collection is not written)
    or, when the user has no record yet, makes the record (0, 0, none,
    server timestamp). *)
Lemma identity_switch_isolation :
  forall (a : App) (s1 s2 : Session) (uid : string) (tKey : Z),
    dataToMigrate a = None ->
    let a1 := handleAuthStateChange (Some uid) tKey (set_session s1 a) in
    let a2 := handleAuthStateChange (Some uid) tKey (set_session s2 a) in
    session a1 = emptySession
    /\ (forall evs : list Event, run evs a1 = run evs a2)
    /\ (forall (db1 db2 : option (gmap string StateObject))
               (evs : list Event),
          pendingReads a = [] ->
          Forall signedInEvent evs ->
          let b1 := handleAuthStateChange (Some uid) tKey
                      (set_db db1 (set_session s1 a)) in
          let b2 := handleAuthStateChange (Some uid) tKey
                      (set_db db2 (set_session s2 a)) in
          firestore (run evs b1) = firestore (run evs b2)
          /\ session (run evs b1) = session (run evs b2))
    /\ (forall (tKey' srvNow : Z) (delOk : bool),
          firestore (step (EvSnapshot None tKey' srvNow true delOk) a1)
            !! (uid, getTodayKey tKey)
          = Some (mkCloudDoc (Some (getTodayKey tKey')) (Some 0) (Some 0)
                             None (Some srvNow)))
    /\ (forall (d : CloudDoc) (tKey' srvNow : Z) (setOk delOk : bool),
          let a' := step (EvSnapshot (Some d) tKey' srvNow setOk delOk) a1 in
          firestore a' = firestore a /\ session a' = adoptCloud d).
Proof.
  intros a s1 s2 uid tKey Hslot a1 a2. subst a1 a2.
  split; [reflexivity |]. split; [reflexivity |]. split; [| split].
  - intros db1 db2 evs Hpend Hevs b1 b2.
    assert (Hsame : sameButLocalStore (run evs b1) (run evs b2)).
    { subst b1 b2. rewrite !handleAuthStateChange_signed_in.
      apply (sameButLocalStore_run evs uid);
        [exact Hevs | same_but_local | reflexivity | exact Hslot | exact Hpend]. }
    destruct Hsame as (Hs & _ & _ & _ & _ & Hf & _). split; assumption.
  - intros tKey' srvNow delOk. rewrite handleAuthStateChange_signed_in.
    cbn [step firestoreListener]. unfold onSnapshot.
    cbn [dataToMigrate set_session]. rewrite Hslot.
    unfold snapshotAdopt. cbn [startTick set_tickInterval firestore].
    apply lookup_recordRef_set.
  - intros d tKey' srvNow setOk delOk. rewrite handleAuthStateChange_signed_in.
    cbn [step firestoreListener]. unfold onSnapshot.
    cbn [dataToMigrate set_session]. rewrite Hslot.
    split; reflexivity.
Qed.

Lemma identity_switch_isolation_witness :
  let a1 := handleAuthStateChange (Some "u1") 1704169900000
              (set_session (session anonymousApp) anonymousApp) in
  dataToMigrate anonymousApp = None
  /\ session a1 = emptySession
  /\ firestore (step (EvSnapshot None 1704169900000 1704169900500 true true) a1)
       !! ("u1", "2024-01-02")
     = Some (mkCloudDoc (Some "2024-01-02") (Some 0) (Some 0) None
                        (Some 1704169900500)).
Proof.
  cbn zeta.
  destruct (identity_switch_isolation anonymousApp (session anonymousApp)
              emptySession "u1" 1704169900000 eq_refl)
    as (Hreset & _ & _ & Hfirst & _).
  split; [reflexivity |]. split; [exact Hreset |].
  exact (Hfirst 1704169900000 1704169900500 true).
Defined.

(** C6. The isolation that the reset is meant to give does not hold.  Let
    the local record of the day hold the anonymous totals (X, Y), let no
    payload be staged, and let the database open before the identity is
    known.  The user is signed in, the session is empty as the reset left
    it, and then the read that was requested while no user was known is
    answered: its callback, which does not look at the current user (the
    request itself is guarded by [!currentUser]), loads the local record,
    and the first snapshot, having no data, writes X and Y and the
    anonymous state into the user's cloud record. *)
Theorem anonymous_totals_reach_cloud_record :
  forall (X Y : Z) (st : option TrackState) (stamp : Z) (uid : string)
         (tOpen tLogin tKey srvNow : Z) (delOk : bool),
    let key := getTodayKey tOpen in
    let store : gmap string StateObject :=
      {[key := mkStateObject key X Y st (TsISO stamp)]} in
    let page := run [EvDbOpenResult (Some store) tOpen;
                     EvAuthStateChange (Some uid) tLogin] initialApp in
    let after := run [EvLocalReadResult true;
                      EvSnapshot None tKey srvNow true delOk] page in
    currentUser page = Some uid
    /\ dataToMigrate page = None
    /\ session page = emptySession
    /\ session (run [EvLocalReadResult true] page)
       = mkSession X Y st (Some stamp)
    /\ firestore after !! (uid, getTodayKey tLogin)
       = Some (mkCloudDoc (Some (getTodayKey tKey)) (Some X) (Some Y) st
                          (Some srvNow)).
Proof.
  intros X Y st stamp uid tOpen tLogin tKey srvNow delOk key store page after.
  assert (Hpage : page = mkApp emptySession (Some uid)
                           (Some (uid, getTodayKey tLogin)) false (Some store)
                           None ∅ [key]).
  { subst page. unfold run. cbn [fold_left step].
    unfold dbOpenResult, handleLoggedOutUser.
    cbn [currentUser set_db initialApp db].
    rewrite handleAuthStateChange_signed_in. reflexivity. }
  assert (Hread : run [EvLocalReadResult true] page
                  = mkApp (mkSession X Y st (Some stamp)) (Some uid)
                      (Some (uid, getTodayKey tLogin)) true (Some store)
                      None ∅ []).
  { rewrite Hpage. unfold run. cbn [fold_left step].
    unfold localReadResult, localRecord.
    cbn [pendingReads set_pendingReads db]. subst store.
    rewrite lookup_singleton_eq. reflexivity. }
  split; [rewrite Hpage; reflexivity |].
  split; [rewrite Hpage; reflexivity |].
  split; [rewrite Hpage; reflexivity |].
  split; [rewrite Hread; reflexivity |].
  subst after.
  change (firestore (step (EvSnapshot None tKey srvNow true delOk)
                       (run [EvLocalReadResult true] page))
            !! (uid, getTodayKey tLogin) = Some (mkCloudDoc (Some (getTodayKey tKey)) (Some X) (Some Y) st
                          (Some srvNow))).
  rewrite Hread. cbn [step firestoreListener]. unfold onSnapshot.
  cbn [dataToMigrate]. unfold snapshotAdopt.
  cbn [startTick set_tickInterval firestore].
  rewrite lookup_recordRef_set. reflexivity.
Qed.

(** ** Staging at sign-in *)

(** C10, as amended. The sign-in click either leaves the page as it is or
    stages the payload of today's local record, and it stages only when
    that record was read and has a strictly positive total.  When the
    record is absent or has no positive total the click changes nothing,
    the slot included; if no payload was in the slot before the click, the
    slot is still empty after the login and the snapshot callback does not
    take the migration branch. *)
Theorem staging_requires_positive_total :
  forall (a : App) (tKey : Z) (readOk : bool),
    let a' := signInClick tKey readOk a in
    (a' = a
     \/ exists r : StateObject,
          readOk = true
          /\ localRecord (getTodayKey tKey) a = Some r
          /\ (0 < so_totalFocusedMs r \/ 0 < so_totalDistractedMs r)
          /\ a' = set_dataToMigrate (Some (payloadOf r)) a)
    /\ ((localRecord (getTodayKey tKey) a = None
         \/ exists r : StateObject,
              localRecord (getTodayKey tKey) a = Some r
              /\ so_totalFocusedMs r <= 0 /\ so_totalDistractedMs r <= 0) ->
        a' = a
        /\ (dataToMigrate a = None ->
            forall (uid : string) (tLogin : Z)
                   (serverData : option CloudDoc) (tKey' srvNow : Z)
                   (setOk delOk : bool),
              let signedIn := handleAuthStateChange (Some uid) tLogin a' in
              dataToMigrate signedIn = None
              /\ step (EvSnapshot serverData tKey' srvNow setOk delOk) signedIn
                 = snapshotAdopt (uid, getTodayKey tLogin) serverData tKey'
                     srvNow setOk signedIn)).
Proof.
  intros a tKey readOk a'.
  assert (Hnone : (localRecord (getTodayKey tKey) a = None
                   \/ exists r : StateObject,
                        localRecord (getTodayKey tKey) a = Some r
                        /\ so_totalFocusedMs r <= 0
                        /\ so_totalDistractedMs r <= 0) -> a' = a).
  { subst a'. unfold signInClick, localRecord.
    destruct (db a) as [store|]; [| reflexivity].
    destruct readOk; [| reflexivity].
    intros [-> | (r & -> & Hf & Hd)]; [reflexivity |].
    destruct (Z.ltb_spec 0 (so_totalFocusedMs r)); [lia |].
    destruct (Z.ltb_spec 0 (so_totalDistractedMs r)); [lia |].
    reflexivity. }
  split.
  - subst a'. unfold signInClick, localRecord.
    destruct (db a) as [store|]; [| left; reflexivity].
    destruct readOk; [| left; reflexivity].
    destruct (store !! getTodayKey tKey) as [r|]; [| left; reflexivity].
    destruct (Z.ltb_spec 0 (so_totalFocusedMs r)) as [Hf|Hf].
    + right. exists r. cbn. repeat split; auto.
    + destruct (Z.ltb_spec 0 (so_totalDistractedMs r)) as [Hd|Hd].
      * right. exists r. cbn. repeat split; auto.
      * left. reflexivity.
  - intros Hrec. split; [exact (Hnone Hrec) |].
    intros Hslot uid tLogin serverData tKey' srvNow setOk delOk signedIn.
    subst signedIn. rewrite (Hnone Hrec), handleAuthStateChange_signed_in.
    rewrite Hslot. split; reflexivity.
Qed.

(** A payload staged on one day by a sign-in that was not completed is
    still in the slot the next day.  There is no record for the new day,
    the click changes nothing, and after the login the snapshot callback
    takes the migration branch and writes the old totals. *)
Lemma stale_payload_migrates_after_click_without_record :
  let store : gmap string StateObject :=
    {["2024-01-01" :=
        mkStateObject "2024-01-01" 60000 0 None (TsISO 1704100000000)]} in
  let before := run [EvDbOpenResult (Some store) 1704100000000;
                     EvLocalReadResult true;
                     EvSignInClick 1704100000000 true] initialApp in
  let clicked := signInClick 1704169800000 true before in
  let signedIn := handleAuthStateChange (Some "u1") 1704169800000 clicked in
  let snap := EvSnapshot None 1704169800000 1704169800500 true true in
  localRecord (getTodayKey 1704169800000) before = None
  /\ clicked = before
  /\ step snap signedIn
     <> snapshotAdopt ("u1", getTodayKey 1704169800000) None 1704169800000
          1704169800500 true signedIn
  /\ firestore (step snap signedIn) !! ("u1", "2024-01-02")
     = Some (mkCloudDoc None (Some 60000) (Some 0) None (Some 1704169800500)).
Proof.
  cbn zeta. split; [vm_compute; reflexivity |].
  split; [vm_compute; reflexivity |]. split.
  - intros H.
    apply (f_equal (fun a => doc_totalFocusedMs
                               <$> (firestore a !! ("u1", "2024-01-02")))) in H.
    vm_compute in H. discriminate H.
  - vm_compute. reflexivity.
Qed.

Lemma staging_requires_positive_total_witness :
  let a' := signInClick 1704169900000 true zeroRecordApp in
  a' = zeroRecordApp
  /\ dataToMigrate (handleAuthStateChange (Some "u1") 1704169900000 a')
     = None.
Proof.
  cbn zeta.
  destruct (staging_requires_positive_total zeroRecordApp 1704169900000 true)
    as [_ H].
  destruct H as [Hsame Hlogin].
  - right.
    exists (mkStateObject "2024-01-02" 0 0 None (TsISO 1704169800000)).
    split; [reflexivity |]. cbn. lia.
  - split; [exact Hsame |].
    exact (proj1 (Hlogin eq_refl "u1" 1704169900000 None 0 0 true true)).
Defined.

(** ** The date key *)

Lemma length_append_string (s r : string) :
  String.length (s +:+ r) = (String.length s + String.length r)%nat.
Proof.
  induction s as [|c s IH]; [reflexivity |].
  change (S (String.length (s +:+ r)) = S (String.length s + String.length r)).
  f_equal. exact IH.
Qed.

Lemma length_zeroPad k : forall n, String.length (zeroPad k n) = k.
Proof.
  induction k as [|k IH]; intros n; cbn [zeroPad]; [reflexivity |].
  rewrite length_append_string, IH. cbn. lia.
Qed.

Lemma substring_prefix (s r : string) :
  substring 0 (String.length s) (s +:+ r) = s.
Proof.
  induction s as [|c s IH].
  - destruct r; reflexivity.
  - change (String c (substring 0 (String.length s) (s +:+ r)) = String c s).
    f_equal. exact IH.
Qed.

Lemma length_isoDate y m d :
  0 <= y <= 9999 -> String.length (isoDate y m d) = 10%nat.
Proof.
  intros Hy. unfold isoDate, isoYear.
  destruct (Z.leb_spec 0 y); [| lia].
  destruct (Z.leb_spec y 9999); [| lia].
  cbn [andb]. rewrite !length_append_string, !length_zeroPad. reflexivity.
Qed.

(** The key is the date part of the ISO text when the year has four
    digits. *)
Lemma getTodayKey_isoDate now :
  0 <= YearFromTime now <= 9999 ->
  getTodayKey now
  = isoDate (YearFromTime now) (MonthFromTime now) (DateFromTime now).
Proof.
  intros Hy. unfold getTodayKey, toISOString. cbv zeta.
  rewrite <- (length_isoDate (YearFromTime now) (MonthFromTime now)
                (DateFromTime now) Hy) at 1.
  apply substring_prefix.
Qed.

(** Instants from 0000-01-01T00:00:00.000Z to 9999-12-31T23:59:59.999Z
    have a year of four digits. *)
Lemma YearFromTime_four_digits now :
  -62167219200000 <= now < 253402300800000 ->
  0 <= YearFromTime now <= 9999.
Proof.
  intros Hnow. unfold YearFromTime.
  assert (Hday : -719528 <= Day now < 2932897).
  { unfold Day, msPerDay. Z.to_euclidean_division_equations. lia. }
  generalize dependent (Day now). clear Hnow now. intros days Hday.
  unfold civil_from_days. cbv zeta.
  repeat match goal with
         | |- context [if ?b then _ else _] => destruct b eqn:?
         end;
    cbn [fst]; Z.to_euclidean_division_equations; lia.
Qed.

Lemma civil_from_days_month_day days :
  1 <= snd (fst (civil_from_days days)) <= 12
  /\ 1 <= snd (civil_from_days days) <= 31.
Proof.
  unfold civil_from_days. cbv zeta.
  repeat match goal with
         | |- context [if ?b then _ else _] => destruct b eqn:?
         end;
    cbn [fst snd]; Z.to_euclidean_division_equations; lia.
Qed.

Lemma days_from_civil_from_days days :
  days_from_civil (fst (fst (civil_from_days days)))
                  (snd (fst (civil_from_days days)))
                  (snd (civil_from_days days)) = days.
Proof.
  unfold civil_from_days, days_from_civil. cbv zeta.
  repeat match goal with
         | |- context [if ?b then _ else _] => destruct b eqn:?
         end;
    cbn [fst snd] in *; Z.to_euclidean_division_equations; lia.
Qed.

Lemma append_inj_same_length (s1 s2 r1 r2 : string) :
  String.length s1 = String.length s2 ->
  s1 +:+ r1 = s2 +:+ r2 -> s1 = s2 /\ r1 = r2.
Proof.
  revert s2. induction s1 as [|c s1 IH]; intros [|c' s2] Hlen Heq;
    try discriminate Hlen.
  - split; [reflexivity | exact Heq].
  - change (String c (s1 +:+ r1) = String c' (s2 +:+ r2)) in Heq.
    injection Heq as -> Heq. injection Hlen as Hlen.
    destruct (IH s2 Hlen Heq) as [-> ->]. split; reflexivity.
Qed.

Lemma digitChar_inj d e :
  0 <= d < 10 -> 0 <= e < 10 -> digitChar d = digitChar e -> d = e.
Proof.
  intros Hd He Heq. unfold digitChar in Heq.
  apply (f_equal nat_of_ascii) in Heq.
  rewrite !nat_ascii_embedding in Heq by lia. lia.
Qed.

Lemma zeroPad_inj k :
  forall n m, 0 <= n < 10 ^ Z.of_nat k -> 0 <= m < 10 ^ Z.of_nat k ->
              zeroPad k n = zeroPad k m -> n = m.
Proof.
  induction k as [|k IH]; intros n m Hn Hm Heq.
  - cbn in Hn, Hm. lia.
  - rewrite Nat2Z.inj_succ, Z.pow_succ_r in Hn, Hm by lia.
    cbn [zeroPad] in Heq.
    apply append_inj_same_length in Heq as [Hhi Hlo];
      [| rewrite !length_zeroPad; reflexivity].
    injection Hlo as Hlo.
    apply digitChar_inj in Hlo;
      [| apply Z.mod_pos_bound; lia | apply Z.mod_pos_bound; lia].
    apply IH in Hhi;
      [| split; [apply Z.div_pos; lia | apply Z.div_lt_upper_bound; lia]
       | split; [apply Z.div_pos; lia | apply Z.div_lt_upper_bound; lia]].
    rewrite (Z.div_mod n 10), (Z.div_mod m 10) by lia. lia.
Qed.

Lemma string_tail_inj c (s s' : string) : String c s = String c s' -> s = s'.
Proof. intros H. injection H as H. exact H. Qed.

Lemma isoDate_inj y m d y' m' d' :
  0 <= y <= 9999 -> 0 <= y' <= 9999 ->
  0 <= m < 100 -> 0 <= m' < 100 -> 0 <= d < 100 -> 0 <= d' < 100 ->
  isoDate y m d = isoDate y' m' d' -> y = y' /\ m = m' /\ d = d'.
Proof.
  intros Hy Hy' Hm Hm' Hd Hd'. unfold isoDate, isoYear.
  destruct (Z.leb_spec 0 y); [| lia]. destruct (Z.leb_spec y 9999); [| lia].
  destruct (Z.leb_spec 0 y'); [| lia]. destruct (Z.leb_spec y' 9999); [| lia].
  cbn [andb]. intros Heq.
  apply append_inj_same_length in Heq as [Hyy Heq];
    [| rewrite !length_zeroPad; reflexivity].
  apply (string_tail_inj "-") in Heq.
  apply append_inj_same_length in Heq as [Hmm Heq];
    [| rewrite !length_zeroPad; reflexivity].
  apply (string_tail_inj "-") in Heq. rename Heq into Hdd.
  apply zeroPad_inj in Hyy; [| cbn; lia | cbn; lia].
  apply zeroPad_inj in Hmm; [| cbn; lia | cbn; lia].
  apply zeroPad_inj in Hdd; [| cbn; lia | cbn; lia].
  auto.
Qed.

Lemma YearFromTime_outside_four_digits now :
  now < -62167219200000 \/ 253402300800000 <= now ->
  YearFromTime now < 0 \/ 9999 < YearFromTime now.
Proof.
  intros Hnow. unfold YearFromTime.
  assert (Hday : Day now < -719528 \/ 2932897 <= Day now).
  { unfold Day, msPerDay. Z.to_euclidean_division_equations. lia. }
  generalize dependent (Day now). clear Hnow now. intros days Hday.
  unfold civil_from_days. cbv zeta.
  repeat match goal with
         | |- context [if ?b then _ else _] => destruct b eqn:?
         end;
    cbn [fst]; Z.to_euclidean_division_equations; lia.
Qed.

Lemma length_isoDate_expanded y m d :
  y < 0 \/ 9999 < y -> String.length (isoDate y m d) = 13%nat.
Proof.
  intros Hy. unfold isoDate, isoYear.
  assert (Hb : (0 <=? y) && (y <=? 9999) = false).
  { apply andb_false_iff. destruct Hy; [left; apply Z.leb_gt | right; apply Z.leb_gt]; lia. }
  rewrite Hb. rewrite !length_append_string, !length_zeroPad.
  destruct (y <? 0); reflexivity.
Qed.

(** Two days with four-digit years and the same printed date are the same
    day. *)
Lemma isoDate_of_day_inj d1 d2 :
  0 <= fst (fst (civil_from_days d1)) <= 9999 ->
  0 <= fst (fst (civil_from_days d2)) <= 9999 ->
  isoDate (fst (fst (civil_from_days d1))) (snd (fst (civil_from_days d1)))
          (snd (civil_from_days d1))
  = isoDate (fst (fst (civil_from_days d2))) (snd (fst (civil_from_days d2)))
            (snd (civil_from_days d2)) ->
  d1 = d2.
Proof.
  intros Hy1 Hy2 Heq.
  destruct (civil_from_days_month_day d1) as [Hm1 Hd1].
  destruct (civil_from_days_month_day d2) as [Hm2 Hd2].
  apply isoDate_inj in Heq as (Hy & Hm & Hd); try lia.
  rewrite <- (days_from_civil_from_days d1), <- (days_from_civil_from_days d2).
  rewrite Hy, Hm, Hd. reflexivity.
Qed.

(** C9, as amended. For every instant from year 0 to year 9999,
    [getTodayKey] returns the YYYY-MM-DD of the instant in UTC, whatever
    the time zone of the device: it is the local calendar day for a zone
    without offset and, for any zone, exactly when the instant falls on
    the same day in local time and in UTC. *)
Theorem getTodayKey_is_utc_day :
  forall now : Z,
    -62167219200000 <= now < 253402300800000 ->
    getTodayKey now
    = isoDate (YearFromTime now) (MonthFromTime now) (DateFromTime now)
    /\ getTodayKey now = spec_localDateKey 0 now
    /\ (forall tza : Z,
          Day (now + tza) = Day now ->
          getTodayKey now = spec_localDateKey tza now)
    /\ (forall tza : Z,
          getTodayKey now = spec_localDateKey tza now ->
          Day (now + tza) = Day now).
Proof.
  intros now Hnow.
  pose proof (YearFromTime_four_digits now Hnow) as Hyear.
  pose proof (getTodayKey_isoDate now Hyear) as Hkey.
  split; [exact Hkey |].
  assert (Hsame : forall tza, Day (now + tza) = Day now ->
                              getTodayKey now = spec_localDateKey tza now).
  { intros tza Hday. rewrite Hkey.
    unfold spec_localDateKey, YearFromTime, MonthFromTime, DateFromTime.
    cbv zeta. rewrite Hday. reflexivity. }
  split; [apply Hsame; rewrite Z.add_0_r; reflexivity |].
  split; [exact Hsame |].
  intros tza Heq. rewrite Hkey in Heq. unfold spec_localDateKey in Heq.
  cbv zeta in Heq.
  destruct (Z_lt_ge_dec (now + tza) (-62167219200000)) as [Hlow|Hlow];
    [| destruct (Z_lt_ge_dec (now + tza) 253402300800000) as [Hhigh|Hhigh]].
  - apply (f_equal String.length) in Heq.
    rewrite (length_isoDate _ _ _ Hyear) in Heq.
    rewrite length_isoDate_expanded in Heq; [discriminate Heq |].
    apply YearFromTime_outside_four_digits. lia.
  - symmetry. apply isoDate_of_day_inj.
    + exact Hyear.
    + apply YearFromTime_four_digits. lia.
    + exact Heq.
  - apply (f_equal String.length) in Heq.
    rewrite (length_isoDate _ _ _ Hyear) in Heq.
    rewrite length_isoDate_expanded in Heq; [discriminate Heq |].
    apply YearFromTime_outside_four_digits. lia.
Qed.

(** 2024-01-02T04:30:00Z is 23:30 of January 1st five hours west of
    Greenwich: the key is the UTC day, not the local one. *)
Lemma getTodayKey_not_local_day :
  getTodayKey 1704169800000 = "2024-01-02"
  /\ spec_localDateKey (-18000000) 1704169800000 = "2024-01-01"
  /\ getTodayKey 1704169800000 <> spec_localDateKey (-18000000) 1704169800000.
Proof.
  split; [reflexivity |]. split; [reflexivity |].
  intros H. vm_compute in H. discriminate H.
Qed.

Lemma getTodayKey_is_utc_day_witness :
  -62167219200000 <= 1704169800000 < 253402300800000
  /\ getTodayKey 1704169800000 = spec_localDateKey 0 1704169800000
  /\ getTodayKey 1704169800000 = spec_localDateKey 3600000 1704169800000
  /\ (getTodayKey 1704169800000 = spec_localDateKey (-18000000) 1704169800000 ->
      Day (1704169800000 + -18000000) = Day 1704169800000).
Proof.
  split; [lia |].
  destruct (getTodayKey_is_utc_day 1704169800000 ltac:(lia))
    as (_ & Hutc & Hzone & Honly).
  split; [exact Hutc |].
  split; [apply Hzone; reflexivity |].
  apply Honly.
Defined.

(** * Further properties *)

(** ** Time per state *)

Lemma foldElapsed_bucket b now s tp :
  lastStateChangeTimestamp s = Some tp ->
  (match b with focus => totalFocusedMs | distract => totalDistractedMs end)
    (foldElapsed now s)
  = (match b with focus => totalFocusedMs | distract => totalDistractedMs end) s
    + (if sameState b (currentState s) then now - tp else 0).
Proof.
  intros Hts. unfold foldElapsed. rewrite Hts.
  destruct (currentState s) as [[]|], b; cbn; lia.
Qed.

Lemma transitions_bucket b l :
  forall srvNow setOk a tp,
    lastStateChangeTimestamp (session a) = Some tp ->
    (match b with focus => totalFocusedMs | distract => totalDistractedMs end)
      (session (transitions l srvNow setOk a))
    = (match b with focus => totalFocusedMs | distract => totalDistractedMs end)
        (session a)
      + stateMs b (currentState (session a)) tp l.
Proof.
  induction l as [|[st' t'] l IH]; intros srvNow setOk a tp Hts.
  - cbn. lia.
  - cbn [transitions stateMs].
    rewrite (IH srvNow setOk _ t') by (rewrite session_transitionAt; reflexivity).
    rewrite session_transitionAt. cbn [currentState].
    pose proof (foldElapsed_bucket b t' (session a) tp Hts) as Hb.
    destruct b; cbn in *; lia.
Qed.

(** X1. From the empty record, each stored total is the time the sequence of
    transitions spent in its state: no interval is credited to the other
    bucket, and none is credited while stopped. *)
Theorem totals_are_time_per_state :
  forall (st0 : option TrackState) (t0 : Z)
         (l : list (option TrackState * Z)) (srvNow : Z) (setOk : bool)
         (a : App),
    session a = emptySession ->
    let s' := session (transitions ((st0, t0) :: l) srvNow setOk a) in
    totalFocusedMs s' = stateMs focus st0 t0 l
    /\ totalDistractedMs s' = stateMs distract st0 t0 l.
Proof.
  intros st0 t0 l srvNow setOk a Hempty s'. subst s'. cbn [transitions].
  split.
  - rewrite (transitions_bucket focus l srvNow setOk _ t0)
      by (rewrite session_transitionAt; reflexivity).
    rewrite session_transitionAt, Hempty. reflexivity.
  - rewrite (transitions_bucket distract l srvNow setOk _ t0)
      by (rewrite session_transitionAt; reflexivity).
    rewrite session_transitionAt, Hempty. reflexivity.
Qed.

Lemma totals_are_time_per_state_witness :
  let l := [(None, 10); (Some distract, 20); (Some focus, 50); (None, 55)] in
  totalFocusedMs (session (transitions ((Some focus, 0) :: l) 0 true initialApp))
  = 15
  /\ totalDistractedMs
       (session (transitions ((Some focus, 0) :: l) 0 true initialApp))
     = 30.
Proof.
  exact (totals_are_time_per_state (Some focus) 0
           [(None, 10); (Some distract, 20); (Some focus, 50); (None, 55)]
           0 true initialApp eq_refl).
Defined.

Lemma foldElapsed_monotone now s :
  (forall ts, lastStateChangeTimestamp s = Some ts -> ts <= now) ->
  totalFocusedMs s <= totalFocusedMs (foldElapsed now s)
  /\ totalDistractedMs s <= totalDistractedMs (foldElapsed now s).
Proof.
  intros Hts. unfold foldElapsed.
  destruct (currentState s) as [st|]; [| lia].
  destruct (lastStateChangeTimestamp s) as [ts|]; [| lia].
  specialize (Hts ts eq_refl). destruct st; cbn; lia.
Qed.

(** X2. While the clock never reads less than at the transition before, no
    transition lowers a stored total. *)
Theorem totals_never_decrease :
  forall (l : list (option TrackState * Z)) (srvNow : Z) (setOk : bool)
         (a : App),
    clockNeverBackward (session a) l ->
    let s' := session (transitions l srvNow setOk a) in
    totalFocusedMs (session a) <= totalFocusedMs s'
    /\ totalDistractedMs (session a) <= totalDistractedMs s'.
Proof.
  induction l as [|[st t] l IH]; intros srvNow setOk a Hclk; [cbn; lia |].
  cbn [transitions].
  assert (Hle : forall ts, lastStateChangeTimestamp (session a) = Some ts ->
                           ts <= t).
  { intros ts Hts. unfold clockNeverBackward in Hclk. rewrite Hts in Hclk.
    cbn in Hclk. tauto. }
  destruct (foldElapsed_monotone t (session a) Hle) as [Hf Hd].
  assert (Hclk' : clockNeverBackward
                    (session (transitionAt st t srvNow setOk a)) l).
  { rewrite session_transitionAt. unfold clockNeverBackward. cbn.
    unfold clockNeverBackward in Hclk.
    destruct (lastStateChangeTimestamp (session a)); cbn in Hclk; tauto. }
  destruct (IH srvNow setOk _ Hclk') as [Hf' Hd'].
  rewrite session_transitionAt in Hf', Hd'. cbn in Hf', Hd'.
  cbn zeta. lia.
Qed.

Lemma totals_never_decrease_witness :
  let a := transitions [(Some focus, 0)] 0 true initialApp in
  let s' := session (transitions [(Some distract, 60000); (None, 90000)]
                       0 true a) in
  totalFocusedMs (session a) <= totalFocusedMs s'
  /\ totalDistractedMs (session a) <= totalDistractedMs s'.
Proof.
  apply (totals_never_decrease [(Some distract, 60000); (None, 90000)] 0 true
           (transitions [(Some focus, 0)] 0 true initialApp)).
  cbn. lia.
Defined.

(** ** Which store a state change writes *)

Lemma lookup_recordRef_set_ne ref ref' w merge srvNow a :
  ref' <> ref ->
  firestore (recordRef_set ref w merge srvNow a) !! ref' = firestore a !! ref'.
Proof. intros Hne. unfold recordRef_set. cbn. apply lookup_insert_ne. congruence. Qed.

(** X3. A state change writes the store in charge and only that one.  For an
    anonymous page the cloud collection is untouched and, with a database,
    today's local record becomes the new session with the client stamp, the
    records of other days staying as they were; without a database nothing
    is stored.  For a signed-in user the local store is untouched and
    today's document of that user becomes the new session with the server's
    timestamp, every other document staying as it was.  When the write
    fails, both stores are as before although the session has changed. *)
Theorem state_change_writes_store_in_charge :
  forall (a : App) (newState : option TrackState)
         (now stamp tKey srvNow : Z),
    let a' := handleStateChange newState now stamp tKey srvNow true a in
    let failed := handleStateChange newState now stamp tKey srvNow false a in
    let key := getTodayKey tKey in
    session failed = session a'
    /\ db failed = db a /\ firestore failed = firestore a
    /\ match currentUser a with
       | None =>
           firestore a' = firestore a
           /\ match db a with
              | None => db a' = None
              | Some _ =>
                  localRecord key a'
                  = Some (mkStateObject key (totalFocusedMs (session a'))
                            (totalDistractedMs (session a')) newState
                            (TsISO stamp))
                  /\ forall k, k <> key -> localRecord k a' = localRecord k a
              end
       | Some uid =>
           db a' = db a
           /\ firestore a' !! (uid, key)
              = Some (mkCloudDoc (Some key)
                        (Some (totalFocusedMs (session a')))
                        (Some (totalDistractedMs (session a')))
                        newState (Some srvNow))
           /\ forall ref, ref <> (uid, key) ->
                          firestore a' !! ref = firestore a !! ref
       end.
Proof.
  intros a newState now stamp tKey srvNow a' failed key.
  split; [subst a' failed; rewrite !session_handleStateChange; reflexivity |].
  subst a' failed key. unfold handleStateChange, localRecord.
  cbn [currentUser set_session db].
  destruct (currentUser a) as [uid|].
  - split; [reflexivity |]. split; [reflexivity |].
    split; [reflexivity |]. split.
    + rewrite lookup_recordRef_set. reflexivity.
    + intros ref Hne. rewrite lookup_recordRef_set_ne by exact Hne.
      reflexivity.
  - destruct (db a) as [store|] eqn:Hdb; cbn; rewrite ?Hdb.
    + split; [reflexivity |]. split; [reflexivity |].
      split; [reflexivity |]. split.
      * apply lookup_insert_eq.
      * intros k Hne. apply lookup_insert_ne. congruence.
    + repeat split.
Qed.

(** ** Saving and loading the local record *)

Lemma adoptLocal_getCurrentStateAsObject tKey s :
  adoptLocal (getCurrentStateAsObject true false tKey s) = s.
Proof.
  destruct s as [f d st [ts|]]; reflexivity.
Qed.

(** X4. What an anonymous page with a database saves at a state change is what
    a page opened later on the same UTC day loads: once the database is
    open and the read is answered, the session of the new page is the
    session that was saved, timestamp included, and its timer runs. *)
Theorem local_record_restores_session :
  forall (a : App) (store : gmap string StateObject)
         (newState : option TrackState) (now stamp tKey srvNow tKey' : Z),
    currentUser a = None ->
    db a = Some store ->
    getTodayKey tKey' = getTodayKey tKey ->
    let a' := handleStateChange newState now stamp tKey srvNow true a in
    let reopened := localReadResult true (dbOpenResult (db a') tKey' initialApp) in
    session reopened = session a' /\ tickInterval reopened = true.
Proof.
  intros a store newState now stamp tKey srvNow tKey' Hanon Hdb Hkey a' reopened.
  assert (Hdb' : db a'
                 = Some (<[getTodayKey tKey :=
                             getCurrentStateAsObject true false tKey (session a')]>
                           store)).
  { subst a'. rewrite session_handleStateChange. unfold handleStateChange.
    cbn [currentUser set_session db]. rewrite Hanon, Hdb. reflexivity. }
  subst reopened. rewrite Hdb'.
  unfold dbOpenResult, handleLoggedOutUser, localReadResult, localRecord.
  cbn. rewrite Hkey, lookup_insert_eq. cbn.
  rewrite adoptLocal_getCurrentStateAsObject. split; reflexivity.
Qed.

Lemma local_record_restores_session_witness :
  let a := dbOpenResult (Some ∅) 0 initialApp in
  let a' := handleStateChange (Some focus) 1704169800000 1704169800000
              1704169800000 0 true a in
  let reopened :=
    localReadResult true (dbOpenResult (db a') 1704170000000 initialApp) in
  session reopened = mkSession 0 0 (Some focus) (Some 1704169800000)
  /\ tickInterval reopened = true.
Proof.
  exact (local_record_restores_session (dbOpenResult (Some ∅) 0 initialApp) ∅
           (Some focus) 1704169800000 1704169800000 1704169800000 0
           1704170000000 eq_refl eq_refl eq_refl).
Defined.

(** X5. The session is not reset when the date key changes.  If an anonymous
    page has its session saved under one key and the next state change
    happens under another key, the record of the new key starts from the
    totals of the old record, to which the interval that ends is added,
    and the old record stays as it was. *)
Theorem totals_carry_into_next_day :
  forall (a : App) (store : gmap string StateObject)
         (newState : option TrackState) (t1 now stamp tKey srvNow : Z),
    currentUser a = None ->
    db a = Some store ->
    store !! getTodayKey t1
    = Some (getCurrentStateAsObject true false t1 (session a)) ->
    getTodayKey tKey <> getTodayKey t1 ->
    let a' := handleStateChange newState now stamp tKey srvNow true a in
    exists r old : StateObject,
      localRecord (getTodayKey tKey) a' = Some r
      /\ localRecord (getTodayKey t1) a' = Some old
      /\ localRecord (getTodayKey t1) a = Some old
      /\ (so_totalFocusedMs r, so_totalDistractedMs r)
         = displayTotals now (adoptLocal old).
Proof.
  intros a store newState t1 now stamp tKey srvNow Hanon Hdb Hold Hne a'.
  exists (getCurrentStateAsObject true false tKey (session a')),
         (getCurrentStateAsObject true false t1 (session a)).
  assert (Hdb' : db a'
                 = Some (<[getTodayKey tKey :=
                             getCurrentStateAsObject true false tKey (session a')]>
                           store)).
  { subst a'. rewrite session_handleStateChange. unfold handleStateChange.
    cbn [currentUser set_session db]. rewrite Hanon, Hdb. reflexivity. }
  unfold localRecord. rewrite Hdb', Hdb.
  split; [apply lookup_insert_eq |].
  split; [rewrite lookup_insert_ne by congruence; exact Hold |].
  split; [exact Hold |].
  rewrite adoptLocal_getCurrentStateAsObject.
  subst a'. rewrite session_handleStateChange. cbn.
  apply foldElapsed_totals.
Qed.

Lemma totals_carry_into_next_day_witness :
  let a := handleStateChange (Some focus) 1704150000000 1704150000000
             1704150000000 0 true (dbOpenResult (Some ∅) 0 initialApp) in
  let a' := handleStateChange None 1704169800000 1704169800000
              1704169800000 0 true a in
  getTodayKey 1704150000000 = "2024-01-01"
  /\ getTodayKey 1704169800000 = "2024-01-02"
  /\ exists r old : StateObject,
       localRecord "2024-01-02" a' = Some r
       /\ localRecord "2024-01-01" a' = Some old
       /\ localRecord "2024-01-01" a = Some old
       /\ (so_totalFocusedMs r, so_totalDistractedMs r)
          = displayTotals 1704169800000 (adoptLocal old).
Proof.
  cbn zeta. split; [reflexivity |]. split; [reflexivity |].
  apply (totals_carry_into_next_day
           (handleStateChange (Some focus) 1704150000000 1704150000000
              1704150000000 0 true (dbOpenResult (Some ∅) 0 initialApp))
           {["2024-01-01" :=
               mkStateObject "2024-01-01" 0 0 (Some focus) (TsISO 1704150000000)]}
           None 1704150000000 1704169800000 1704169800000 1704169800000 0).
  - reflexivity.
  - reflexivity.
  - reflexivity.
  - intros H. vm_compute in H. discriminate H.
Defined.

(** ** Snapshots that echo the page's own writes *)

(** X6. A signed-in state change whose write is accepted comes back as a
    snapshot of the stored document.  Adopting it leaves both totals and
    the state as the state change set them and replaces the client stamp by
    the server's timestamp; the collection is not written again. *)
Theorem echo_keeps_totals_and_takes_server_time :
  forall (a : App) (uid : string) (newState : option TrackState)
         (now stamp tKey srvNow tKey' srvNow' : Z) (setOk delOk : bool),
    currentUser a = Some uid ->
    firestoreListener a = Some (uid, getTodayKey tKey) ->
    dataToMigrate a = None ->
    let a' := handleStateChange newState now stamp tKey srvNow true a in
    let echo := EvSnapshot (firestore a' !! (uid, getTodayKey tKey))
                  tKey' srvNow' setOk delOk in
    session (step echo a')
    = mkSession (totalFocusedMs (session a')) (totalDistractedMs (session a'))
                newState (Some srvNow)
    /\ lastStateChangeTimestamp (session a') = Some stamp
    /\ firestore (step echo a') = firestore a'.
Proof.
  intros a uid newState now stamp tKey srvNow tKey' srvNow' setOk delOk
         Huser Hlistener Hslot a' echo.
  assert (Ha' : a' = recordRef_set (uid, getTodayKey tKey)
                       (toCloudWrite
                          (getCurrentStateAsObject false true tKey (session a')))
                       true srvNow (set_session (session a') a)).
  { subst a'. rewrite session_handleStateChange. unfold handleStateChange.
    cbn [currentUser set_session]. rewrite Huser. reflexivity. }
  assert (Hst : currentState (session a') = newState)
    by (subst a'; rewrite session_handleStateChange; reflexivity).
  assert (Hecho : step echo a'
                  = startTick
                      (set_session
                         (adoptCloud
                            (applyWrite true srvNow
                               (toCloudWrite
                                  (getCurrentStateAsObject false true tKey
                                     (session a')))
                               (firestore a !! (uid, getTodayKey tKey))))
                         a')).
  { subst echo. rewrite Ha' at 1 2. rewrite lookup_recordRef_set.
    cbn [step]. rewrite Ha' at 1. cbn [firestoreListener recordRef_set
      set_firestore set_session]. rewrite Hlistener.
    unfold onSnapshot. rewrite Ha' at 1. cbn [dataToMigrate recordRef_set
      set_firestore set_session]. rewrite Hslot.
    unfold snapshotAdopt. rewrite <- Ha'. reflexivity. }
  assert (Hstamp : lastStateChangeTimestamp (session a') = Some stamp)
    by (subst a'; rewrite session_handleStateChange; reflexivity).
  rewrite Hecho. clearbody a'. split; [| split].
  - cbn [session startTick set_tickInterval set_session].
    unfold adoptCloud, applyWrite, toCloudWrite, getCurrentStateAsObject.
    cbn. rewrite Hst. reflexivity.
  - exact Hstamp.
  - reflexivity.
Qed.

Lemma echo_keeps_totals_and_takes_server_time_witness :
  let a := handleAuthStateChange (Some "u1") 1704169800000 initialApp in
  let a' := handleStateChange (Some focus) 1704169800100 1704169800101
              1704169800102 1704169800999 true a in
  let echo := EvSnapshot (firestore a' !! ("u1", "2024-01-02"))
                1704169801000 1704169801500 true true in
  session (step echo a') = mkSession 0 0 (Some focus) (Some 1704169800999)
  /\ lastStateChangeTimestamp (session a') = Some 1704169800101
  /\ firestore (step echo a') = firestore a'.
Proof.
  exact (echo_keeps_totals_and_takes_server_time
           (handleAuthStateChange (Some "u1") 1704169800000 initialApp) "u1"
           (Some focus) 1704169800100 1704169800101 1704169800102
           1704169800999 1704169801000 1704169801500 true true
           eq_refl eq_refl eq_refl).
Defined.

(** X7. The migration runs once.  After the merge write is accepted, the
    snapshot that echoes the merged document is adopted like any other: the
    session becomes the merged totals with the state of the payload and the
    server's timestamp, and the collection is not written a second time. *)
Theorem migration_runs_once :
  forall (a : App) (p : MigrationPayload) (ref : DocRef)
         (serverData : option CloudDoc) (tKey srvNow tKey' srvNow' : Z)
         (delOk setOk' delOk' : bool),
    dataToMigrate a = Some p ->
    let a1 := onSnapshot ref serverData tKey srvNow true delOk a in
    let a2 := onSnapshot ref (firestore a1 !! ref) tKey' srvNow' setOk' delOk' a1 in
    session a2
    = mkSession (orZero (serverData ≫= doc_totalFocusedMs) + mp_totalFocusedMs p)
                (orZero (serverData ≫= doc_totalDistractedMs)
                 + mp_totalDistractedMs p)
                (mp_currentState p) (Some srvNow)
    /\ firestore a2 = firestore a1
    /\ dataToMigrate a2 = None.
Proof.
  intros a p ref serverData tKey srvNow tKey' srvNow' delOk setOk' delOk'
         Hp a1 a2.
  assert (Hslot : dataToMigrate a1 = None).
  { subst a1. unfold onSnapshot. rewrite Hp. unfold snapshotMigrate.
    rewrite dataToMigrate_deleteLocalRecord. reflexivity. }
  assert (Hdoc : firestore a1 !! ref
                 = Some (applyWrite true srvNow (migratedData serverData p)
                           (firestore a !! ref))).
  { subst a1. unfold onSnapshot. rewrite Hp. unfold snapshotMigrate.
    rewrite firestore_deleteLocalRecord, lookup_recordRef_set. reflexivity. }
  subst a2. rewrite Hdoc. clearbody a1.
  assert (Hadopt : forall d,
             onSnapshot ref (Some d) tKey' srvNow' setOk' delOk' a1
             = startTick (set_session (adoptCloud d) a1))
    by (intros d; unfold onSnapshot; rewrite Hslot; reflexivity).
  rewrite Hadopt. split; [reflexivity |]. split; [reflexivity | exact Hslot].
Qed.

Lemma migration_runs_once_witness :
  let ref := ("u1", "2024-01-02") in
  let a1 := onSnapshot ref (firestore stagedApp !! ref)
              1704169900000 1704169900500 true true stagedApp in
  let a2 := onSnapshot ref (firestore a1 !! ref)
              1704169901000 1704169901500 true true a1 in
  session a2 = mkSession 150 200 (Some focus) (Some 1704169900500)
  /\ firestore a2 = firestore a1
  /\ dataToMigrate a2 = None.
Proof.
  exact (migration_runs_once stagedApp (mkMigrationPayload 50 0 (Some focus))
           ("u1", "2024-01-02")
           (firestore stagedApp !! ("u1", "2024-01-02"))
           1704169900000 1704169900500 1704169901000 1704169901500
           true true true eq_refl).
Defined.

(** ** The listener and the documents of other users *)

Ltac handler_cases :=
  unfold localReadResult, onSnapshot, snapshotMigrate, snapshotAdopt,
    deleteLocalRecord, handleStateChange, signInClick, dbOpenResult,
    handleAuthStateChange, handleLoggedInUser, handleLoggedOutUser,
    localRecord;
  repeat match goal with
         | |- context [match ?x with _ => _ end] => destruct x eqn:?
         end.

Lemma user_and_listener_step e a :
  match e with EvAuthStateChange _ _ => False | _ => True end ->
  currentUser (step e a) = currentUser a
  /\ firestoreListener (step e a) = firestoreListener a.
Proof.
  destruct e as [user tKey | readOk | serverData tKey srvNow setOk delOk
                | newState now stamp tKey srvNow setOk
                | tKey readOk | result tKey | now];
    intros He; try contradiction; cbn [step];
    handler_cases; cbn in *; split; congruence.
Qed.

Lemma listenerMatchesUser_step e a :
  listenerMatchesUser a -> listenerMatchesUser (step e a).
Proof.
  intros Hinv.
  destruct e as [user tKey | | | | | |];
    [| match goal with
       | |- listenerMatchesUser (step ?e a) =>
           destruct (user_and_listener_step e a I) as [Hu Hl];
           unfold listenerMatchesUser; rewrite Hu, Hl; exact Hinv
       end ..].
  cbn [step]. unfold handleAuthStateChange, listenerMatchesUser.
  destruct user as [uid|].
  - cbn. eexists; reflexivity.
  - unfold handleLoggedOutUser. cbn [db resetStateInMemory set_session
      set_currentUser set_tickInterval set_firestoreListener].
    destruct (db a); reflexivity.
Qed.

Lemma listenerMatchesUser_run evs :
  forall a, listenerMatchesUser a -> listenerMatchesUser (run evs a).
Proof.
  induction evs as [|e evs IH]; intros a Hinv; [exact Hinv |].
  cbn. apply IH, listenerMatchesUser_step, Hinv.
Qed.

(** X8. From a page whose listener, if any, belongs to its user, every run of
    events keeps the listener on a document of the current user and
    without a user there is no listener; and no event changes a document
    of anyone but the user signed in when it happens: an anonymous page
    never writes to the cloud collection. *)
Theorem cloud_written_only_for_current_user :
  forall (a0 : App) (evs : list Event) (e : Event) (ref : DocRef),
    listenerMatchesUser a0 ->
    let a := run evs a0 in
    listenerMatchesUser a
    /\ (currentUser a <> Some (fst ref) ->
        firestore (step e a) !! ref = firestore a !! ref).
Proof.
  intros a0 evs e ref Hinv0 a.
  assert (Hinv : listenerMatchesUser a) by (apply listenerMatchesUser_run, Hinv0).
  split; [exact Hinv |]. clearbody a. intros Hother.
  destruct e as [user tKey | readOk | serverData tKey srvNow setOk delOk
                | newState now stamp tKey srvNow setOk
                | tKey readOk | result tKey | now]; cbn [step].
  - unfold handleAuthStateChange, handleLoggedInUser, handleLoggedOutUser.
    destruct user; [reflexivity |].
    cbn [db resetStateInMemory set_session set_currentUser set_tickInterval
         set_firestoreListener].
    destruct (db a); reflexivity.
  - unfold localReadResult. destruct (pendingReads a); [reflexivity |].
    destruct readOk; [destruct (localRecord _ _) |]; reflexivity.
  - unfold listenerMatchesUser in Hinv.
    destruct (currentUser a) as [uid|] eqn:Huser.
    + destruct Hinv as [dateKey ->].
      assert (Hne : ref <> (uid, dateKey))
        by (intros ->; apply Hother; reflexivity).
      unfold onSnapshot, snapshotMigrate, snapshotAdopt.
      destruct (dataToMigrate a);
        [destruct setOk; [rewrite firestore_deleteLocalRecord |]
        | destruct serverData; [| destruct setOk]];
        try reflexivity;
        cbn [firestore startTick set_tickInterval];
        rewrite lookup_recordRef_set_ne by exact Hne; reflexivity.
    + rewrite Hinv. reflexivity.
  - unfold handleStateChange. cbn [currentUser set_session db].
    destruct (currentUser a) as [uid|] eqn:Huser.
    + destruct setOk; [| reflexivity].
      rewrite lookup_recordRef_set_ne; [reflexivity |].
      intros ->. apply Hother. reflexivity.
    + destruct (db a); [destruct setOk |]; reflexivity.
  - unfold signInClick. destruct (db a) as [store|]; [| reflexivity].
    destruct readOk; [| reflexivity].
    destruct (store !! _); [destruct (_ || _) |]; reflexivity.
  - unfold dbOpenResult, handleLoggedOutUser.
    destruct result; cbn [currentUser set_db db];
      destruct (currentUser a); try reflexivity;
      destruct (db a); reflexivity.
  - reflexivity.
Qed.

Lemma cloud_written_only_for_current_user_witness :
  let a := run [EvAuthStateChange (Some "u1") 1704169800000] stagedApp in
  listenerMatchesUser stagedApp
  /\ listenerMatchesUser a
  /\ firestore (step (EvSnapshot None 1704169800000 1704169800500 true true) a)
       !! ("u2", "2024-01-02")
     = firestore a !! ("u2", "2024-01-02").
Proof.
  cbn zeta.
  assert (H0 : listenerMatchesUser stagedApp) by (eexists; reflexivity).
  split; [exact H0 |].
  destruct (cloud_written_only_for_current_user stagedApp
              [EvAuthStateChange (Some "u1") 1704169800000]
              (EvSnapshot None 1704169800000 1704169800500 true true)
              ("u2", "2024-01-02") H0) as [Hinv Hsame].
  split; [exact Hinv |].
  apply Hsame. intros H. discriminate H.
Defined.

(** ** The sign-in click *)

(** X9. The sign-in click changes nothing but the slot, and clicking again
    (the sign-in having failed, say) stages the same payload: the local
    totals are staged once, not added up. *)
Theorem sign_in_click_only_stages :
  forall (a : App) (tKey : Z) (readOk : bool),
    let a' := signInClick tKey readOk a in
    a' = set_dataToMigrate (dataToMigrate a') a
    /\ signInClick tKey readOk a' = a'.
Proof.
  intros a tKey readOk a'. subst a'. unfold signInClick.
  destruct a as [s u l t [store|] m f p]; cbn [db]; [| split; reflexivity].
  destruct readOk; [| split; reflexivity].
  destruct (store !! getTodayKey tKey) as [r|] eqn:Hr;
    [| cbn [db]; rewrite Hr; split; reflexivity].
  destruct (_ || _) eqn:Hpos;
    cbn [db set_dataToMigrate]; rewrite Hr, Hpos; split; reflexivity.
Qed.

(** ** The anonymous path *)

(** X10. When the identity becomes anonymous and no earlier read is pending,
    then, once the read of the local record is answered (or at once when
    there is no database), the timer runs, no listener is left, and the
    session is the local record of the day if the read found one and the
    empty session otherwise: a failed read counts as no record. *)
Theorem anonymous_path_loads_local_record :
  forall (a : App) (tKey : Z) (readOk : bool),
    pendingReads a = [] ->
    let b := localReadResult readOk (handleAuthStateChange None tKey a) in
    tickInterval b = true
    /\ currentUser b = None
    /\ firestoreListener b = None
    /\ pendingReads b = []
    /\ session b
       = match (if readOk then localRecord (getTodayKey tKey) a else None) with
         | Some r => adoptLocal r
         | None => emptySession
         end.
Proof.
  intros a tKey readOk Hpend b. subst b.
  destruct a as [s u l t d m f p]. cbn in Hpend. subst p.
  unfold handleAuthStateChange, handleLoggedOutUser, localReadResult, localRecord.
  destruct d as [store|]; cbn [db resetStateInMemory set_session
    set_currentUser set_tickInterval set_firestoreListener set_pendingReads
    pendingReads startTick app tickInterval currentUser firestoreListener
    session].
  - destruct readOk; [destruct (store !! getTodayKey tKey) |];
      repeat split; reflexivity.
  - destruct readOk; repeat split; reflexivity.
Qed.

Lemma anonymous_path_loads_local_record_witness :
  let b := localReadResult true (handleAuthStateChange None 1704169900000
                                   stagedApp) in
  tickInterval b = true
  /\ session b = mkSession 50 0 (Some focus) (Some 1704169800000).
Proof.
  destruct (anonymous_path_loads_local_record stagedApp 1704169900000 true
              eq_refl) as (Htick & _ & _ & _ & Hsession).
  split; [exact Htick | exact Hsession].
Defined.

(** X11. The callback of a local read does not look at the current user.  If
    the database opens before the identity is known and the user turns out
    to be signed in before the read is answered, the local record of the
    day becomes the session of the signed-in page although the sign-in had
    emptied it, and a first snapshot without data then writes the local
    totals and state to the user's document. *)
Theorem late_local_read_overrides_signed_in_session :
  forall (store : gmap string StateObject) (r : StateObject) (uid : string)
         (tOpen tLogin tKey srvNow : Z) (delOk : bool),
    store !! getTodayKey tOpen = Some r ->
    let a := run [EvDbOpenResult (Some store) tOpen;
                  EvAuthStateChange (Some uid) tLogin;
                  EvLocalReadResult true] initialApp in
    currentUser a = Some uid
    /\ session a = adoptLocal r
    /\ firestore (step (EvSnapshot None tKey srvNow true delOk) a)
         !! (uid, getTodayKey tLogin)
       = Some (mkCloudDoc (Some (getTodayKey tKey))
                 (Some (so_totalFocusedMs r)) (Some (so_totalDistractedMs r))
                 (so_currentState r) (Some srvNow)).
Proof.
  intros store r uid tOpen tLogin tKey srvNow delOk Hr a.
  assert (Ha : a = mkApp (adoptLocal r) (Some uid)
                     (Some (uid, getTodayKey tLogin)) true (Some store) None
                     ∅ []).
  { subst a. unfold run. cbn [fold_left step].
    unfold dbOpenResult, handleLoggedOutUser. cbn [currentUser set_db initialApp db].
    rewrite handleAuthStateChange_signed_in.
    unfold localReadResult, localRecord. cbn. rewrite Hr. reflexivity. }
  rewrite Ha. clear Ha a. split; [reflexivity |]. split; [reflexivity |].
  cbn [step firestoreListener]. unfold onSnapshot. cbn [dataToMigrate].
  unfold snapshotAdopt. cbn [startTick set_tickInterval firestore].
  rewrite lookup_recordRef_set. reflexivity.
Qed.

Lemma late_local_read_overrides_signed_in_session_witness :
  let store : gmap string StateObject :=
    {["2024-01-02" :=
        mkStateObject "2024-01-02" 50 0 (Some focus) (TsISO 1704169800000)]} in
  let a := run [EvDbOpenResult (Some store) 1704169900000;
                EvAuthStateChange (Some "u1") 1704169900001;
                EvLocalReadResult true] initialApp in
  session a = mkSession 50 0 (Some focus) (Some 1704169800000)
  /\ firestore (step (EvSnapshot None 1704169900002 1704169900500 true true) a)
       !! ("u1", "2024-01-02")
     = Some (mkCloudDoc (Some "2024-01-02") (Some 50) (Some 0) (Some focus)
               (Some 1704169900500)).
Proof.
  cbn zeta.
  pose (store := ({["2024-01-02" :=
                      mkStateObject "2024-01-02" 50 0 (Some focus)
                        (TsISO 1704169800000)]} : gmap string StateObject)).
  assert (Hr : store !! getTodayKey 1704169900000
               = Some (mkStateObject "2024-01-02" 50 0 (Some focus)
                         (TsISO 1704169800000)))
    by reflexivity.
  destruct (late_local_read_overrides_signed_in_session store _
              "u1" 1704169900000 1704169900001 1704169900002 1704169900500
              true Hr) as (_ & Hsession & Hdoc).
  split; [exact Hsession | exact Hdoc].
Defined.

(** ** Date keys and days *)

(** X12. For instants from year 0 to year 9999, two instants get the same date
    key exactly when they fall on the same UTC day: records of different
    days never share a key, and one day never has two keys. *)
Theorem date_key_identifies_utc_day :
  forall t1 t2 : Z,
    -62167219200000 <= t1 < 253402300800000 ->
    -62167219200000 <= t2 < 253402300800000 ->
    (getTodayKey t1 = getTodayKey t2 <-> Day t1 = Day t2).
Proof.
  intros t1 t2 H1 H2.
  pose proof (YearFromTime_four_digits t1 H1) as Hy1.
  pose proof (YearFromTime_four_digits t2 H2) as Hy2.
  rewrite (getTodayKey_isoDate t1 Hy1), (getTodayKey_isoDate t2 Hy2).
  unfold YearFromTime, MonthFromTime, DateFromTime in *.
  split.
  - intros Heq.
    destruct (civil_from_days_month_day (Day t1)) as [Hm1 Hd1].
    destruct (civil_from_days_month_day (Day t2)) as [Hm2 Hd2].
    apply isoDate_inj in Heq as (Hy & Hm & Hd); try lia.
    rewrite <- (days_from_civil_from_days (Day t1)),
            <- (days_from_civil_from_days (Day t2)).
    rewrite Hy, Hm, Hd. reflexivity.
  - intros ->. reflexivity.
Qed.

Lemma date_key_identifies_utc_day_witness :
  (getTodayKey 1704153600000 = getTodayKey 1704239999999
   <-> Day 1704153600000 = Day 1704239999999)
  /\ getTodayKey 1704153600000 = "2024-01-02"
  /\ getTodayKey 1704239999999 = "2024-01-02".
Proof.
  split; [| split; reflexivity].
  apply date_key_identifies_utc_day; lia.
Defined.

(** X13. For instants from year 0 to year 9999 the date key is ten characters:
    four digits of year, two of a month from 01 to 12 and two of a day
    from 01 to 31, with dashes between. *)
Theorem date_key_well_formed :
  forall now : Z,
    -62167219200000 <= now < 253402300800000 ->
    exists y m d : Z,
      getTodayKey now = zeroPad 4 y +:+ "-" +:+ zeroPad 2 m +:+ "-" +:+ zeroPad 2 d
      /\ 0 <= y <= 9999 /\ 1 <= m <= 12 /\ 1 <= d <= 31
      /\ String.length (getTodayKey now) = 10%nat.
Proof.
  intros now Hnow.
  pose proof (YearFromTime_four_digits now Hnow) as Hy.
  exists (YearFromTime now), (MonthFromTime now), (DateFromTime now).
  rewrite (getTodayKey_isoDate now Hy).
  destruct (civil_from_days_month_day (Day now)) as [Hm Hd].
  split; [| split; [exact Hy | split; [exact Hm | split; [exact Hd |]]]].
  - unfold isoDate, isoYear.
    destruct (Z.leb_spec 0 (YearFromTime now)); [| lia].
    destruct (Z.leb_spec (YearFromTime now) 9999); [| lia].
    reflexivity.
  - apply length_isoDate, Hy.
Qed.

Lemma date_key_well_formed_witness :
  exists y m d : Z,
    getTodayKey 951782400000
    = zeroPad 4 y +:+ "-" +:+ zeroPad 2 m +:+ "-" +:+ zeroPad 2 d
    /\ 0 <= y <= 9999 /\ 1 <= m <= 12 /\ 1 <= d <= 31
    /\ String.length (getTodayKey 951782400000) = 10%nat.
Proof.
  apply date_key_well_formed. lia.
Defined.

(** ** The formatted time *)

Lemma padStart_two_digits_below_100 :
  forallb (fun k => String.eqb (padStart 2 "0" (js_String (Z.of_nat k)))
                               (zeroPad 2 (Z.of_nat k)))
          (seq 0 100) = true.
Proof. vm_compute. reflexivity. Qed.

Lemma padStart_two_digits n :
  0 <= n < 100 -> padStart 2 "0" (js_String n) = zeroPad 2 n.
Proof.
  intros Hn.
  pose proof padStart_two_digits_below_100 as Hall.
  rewrite forallb_forall in Hall.
  specialize (Hall (Z.to_nat n)).
  rewrite Z2Nat.id in Hall by lia.
  apply String.eqb_eq, Hall, in_seq. lia.
Qed.

(** X14. A duration below one hundred hours (a negative one counting as zero)
    is shown as eight characters, two digits each of hours, minutes below
    60 and seconds below 60 of its whole seconds; two such durations are
    shown alike exactly when they have the same number of whole seconds. *)
Theorem formatTime_below_100_hours :
  forall ms : Z,
    ms < 360000000 ->
    let s := Z.max 0 ms / 1000 in
    formatTime ms
    = zeroPad 2 (s / 3600) +:+ ":" +:+ zeroPad 2 (s mod 3600 / 60)
      +:+ ":" +:+ zeroPad 2 (s mod 60)
    /\ String.length (formatTime ms) = 8%nat
    /\ forall ms' : Z,
         ms' < 360000000 ->
         (formatTime ms = formatTime ms'
          <-> Z.max 0 ms / 1000 = Z.max 0 ms' / 1000).
Proof.
  assert (Hshape : forall ms, ms < 360000000 ->
            formatTime ms
            = zeroPad 2 (Z.max 0 ms / 1000 / 3600) +:+ ":"
              +:+ zeroPad 2 ((Z.max 0 ms / 1000) mod 3600 / 60)
              +:+ ":" +:+ zeroPad 2 ((Z.max 0 ms / 1000) mod 60)).
  { intros ms Hms. rewrite formatTime_clamps. unfold formatTime.
    destruct (Z.ltb_spec (Z.max 0 ms) 0) as [Hneg|_]; [lia |].
    set (s := Z.max 0 ms / 1000).
    assert (Hs : 0 <= s < 360000)
      by (subst s; Z.to_euclidean_division_equations; lia).
    rewrite !Z.rem_mod_nonneg by lia.
    rewrite !padStart_two_digits
      by (Z.to_euclidean_division_equations; lia).
    reflexivity. }
  intros ms Hms s. split; [apply Hshape, Hms |]. split.
  - rewrite (Hshape ms Hms), !length_append_string, !length_zeroPad.
    reflexivity.
  - intros ms' Hms'. rewrite (Hshape ms Hms), (Hshape ms' Hms').
    set (u := Z.max 0 ms / 1000). set (v := Z.max 0 ms' / 1000).
    assert (Hu : 0 <= u < 360000)
      by (subst u; Z.to_euclidean_division_equations; lia).
    assert (Hv : 0 <= v < 360000)
      by (subst v; Z.to_euclidean_division_equations; lia).
    split; [| intros ->; reflexivity].
    intros Heq.
    apply append_inj_same_length in Heq as [Hh Heq];
      [| rewrite !length_zeroPad; reflexivity].
    apply (string_tail_inj ":") in Heq.
    apply append_inj_same_length in Heq as [Hm Heq];
      [| rewrite !length_zeroPad; reflexivity].
    apply (string_tail_inj ":") in Heq.
    apply zeroPad_inj in Hh;
      [| cbn; Z.to_euclidean_division_equations; lia
       | cbn; Z.to_euclidean_division_equations; lia].
    apply zeroPad_inj in Hm;
      [| cbn; Z.to_euclidean_division_equations; lia
       | cbn; Z.to_euclidean_division_equations; lia].
    apply zeroPad_inj in Heq;
      [| cbn; Z.to_euclidean_division_equations; lia
       | cbn; Z.to_euclidean_division_equations; lia].
    Z.to_euclidean_division_equations. lia.
Qed.

Lemma formatTime_below_100_hours_witness :
  formatTime 3723999 = "01:02:03"
  /\ String.length (formatTime 3723999) = 8%nat
  /\ (formatTime 3723999 = formatTime 3723000
      <-> Z.max 0 3723999 / 1000 = Z.max 0 3723000 / 1000).
Proof.
  destruct (formatTime_below_100_hours 3723999 ltac:(lia))
    as (Hshape & Hlen & Hsame).
  split; [exact Hshape |]. split; [exact Hlen |].
  apply Hsame. lia.
Defined.

(** ** Writes that fail *)

(** X15. If the delete that follows an accepted merge write fails, the local
    record stays.  When the user signs out and clicks the sign-in button
    again, the record is staged again, and after the new sign-in the
    migration adds the same local totals to the cloud record a second
    time. *)
Theorem failed_delete_migrates_twice :
  forall (a : App) (r : StateObject) (ref : DocRef)
         (serverData : option CloudDoc)
         (tKey srvNow tOut tLogin tKey' srvNow' : Z) (delOk' : bool),
    dataToMigrate a = Some (payloadOf r) ->
    localRecord (getTodayKey tKey) a = Some r ->
    0 < so_totalFocusedMs r \/ 0 < so_totalDistractedMs r ->
    let a1 := onSnapshot ref serverData tKey srvNow true false a in
    let a2 := handleAuthStateChange (Some (fst ref)) tLogin
                (signInClick tKey true (handleAuthStateChange None tOut a1)) in
    let a3 := onSnapshot ref (firestore a2 !! ref) tKey' srvNow' true delOk' a2 in
    localRecord (getTodayKey tKey) a1 = Some r
    /\ dataToMigrate a1 = None
    /\ dataToMigrate a2 = Some (payloadOf r)
    /\ exists d3 : CloudDoc,
         firestore a3 !! ref = Some d3
         /\ doc_totalFocusedMs d3
            = Some (orZero (serverData ≫= doc_totalFocusedMs)
                    + 2 * so_totalFocusedMs r)
         /\ doc_totalDistractedMs d3
            = Some (orZero (serverData ≫= doc_totalDistractedMs)
                    + 2 * so_totalDistractedMs r).
Proof.
  intros a r ref serverData tKey srvNow tOut tLogin tKey' srvNow' delOk'
         Hp Hr Hpos a1 a2 a3.
  destruct a as [s u l t [store|] m f p]; unfold localRecord in Hr;
    cbn [db dataToMigrate] in Hp, Hr; [| discriminate Hr]. subst m.
  assert (Hb : (0 <? so_totalFocusedMs r) || (0 <? so_totalDistractedMs r)
               = true).
  { apply orb_true_iff. destruct Hpos; [left | right]; apply Z.ltb_lt; lia. }
  set (merged := applyWrite true srvNow (migratedData serverData (payloadOf r))
                   (f !! ref)).
  assert (Ha1 : a1 = mkApp s u l t (Some store) None (<[ref := merged]> f) p)
    by reflexivity.
  assert (Ha2 : a2 = mkApp emptySession (Some (fst ref))
                       (Some (fst ref, getTodayKey tLogin)) false (Some store)
                       (Some (payloadOf r)) (<[ref := merged]> f)
                       (p ++ [getTodayKey tOut])).
  { subst a2. rewrite Ha1, handleAuthStateChange_signed_in.
    unfold handleAuthStateChange, handleLoggedOutUser, signInClick.
    cbn [db resetStateInMemory set_session set_currentUser set_tickInterval
         set_firestoreListener set_pendingReads].
    rewrite Hr, Hb. reflexivity. }
  clearbody a1 a2. subst a1 a3. rewrite Ha2. clear Ha2 a2.
  split; [exact Hr |]. split; [reflexivity |]. split; [reflexivity |].
  cbn [firestore]. rewrite lookup_insert_eq.
  unfold onSnapshot. cbn [dataToMigrate]. unfold snapshotMigrate.
  rewrite firestore_deleteLocalRecord, lookup_recordRef_set.
  eexists. split; [reflexivity |]. subst merged. cbn. split; f_equal; lia.
Qed.

Lemma failed_delete_migrates_twice_witness :
  let ref := ("u1", "2024-01-02") in
  let a1 := onSnapshot ref (firestore stagedApp !! ref)
              1704169900000 1704169900500 true false stagedApp in
  let a2 := handleAuthStateChange (Some "u1") 1704169900800
              (signInClick 1704169900000 true
                 (handleAuthStateChange None 1704169900600 a1)) in
  let a3 := onSnapshot ref (firestore a2 !! ref)
              1704169901000 1704169901500 true true a2 in
  exists d3 : CloudDoc,
    firestore a3 !! ref = Some d3
    /\ doc_totalFocusedMs d3 = Some 200
    /\ doc_totalDistractedMs d3 = Some 200.
Proof.
  cbn zeta.
  destruct (failed_delete_migrates_twice stagedApp
              (mkStateObject "2024-01-02" 50 0 (Some focus) (TsISO 1704169800000))
              ("u1", "2024-01-02")
              (firestore stagedApp !! ("u1", "2024-01-02"))
              1704169900000 1704169900500 1704169900600 1704169900800
              1704169901000 1704169901500 true
              eq_refl eq_refl (or_introl eq_refl))
    as (_ & _ & _ & d3 & Hdoc & Hf & Hd).
  exists d3. split; [exact Hdoc |]. split; [exact Hf | exact Hd].
Defined.

(** X16. A signed-in state change whose cloud write fails changes the session
    only until the next snapshot: adopting a snapshot with data leaves the
    page exactly as if the state change had not happened. *)
Theorem snapshot_undoes_unsaved_state_change :
  forall (a : App) (uid : string) (ref : DocRef) (d : CloudDoc)
         (newState : option TrackState)
         (now stamp tKey srvNow tKey' srvNow' : Z) (setOk delOk : bool),
    currentUser a = Some uid ->
    firestoreListener a = Some ref ->
    dataToMigrate a = None ->
    let unsaved := handleStateChange newState now stamp tKey srvNow false a in
    let snap := EvSnapshot (Some d) tKey' srvNow' setOk delOk in
    session unsaved
    = mkSession (fst (displayTotals now (session a)))
                (snd (displayTotals now (session a))) newState (Some stamp)
    /\ step snap unsaved = step snap a.
Proof.
  intros a uid ref d newState now stamp tKey srvNow tKey' srvNow' setOk delOk
         Huser Hlistener Hslot unsaved snap.
  split.
  - subst unsaved. rewrite session_handleStateChange.
    rewrite <- foldElapsed_totals. reflexivity.
  - assert (Hu : unsaved = set_session (session unsaved) a).
    { subst unsaved. rewrite session_handleStateChange.
      unfold handleStateChange. cbn [currentUser set_session].
      rewrite Huser. reflexivity. }
    rewrite Hu. subst snap. cbn [step firestoreListener set_session].
    rewrite Hlistener. unfold onSnapshot.
    cbn [dataToMigrate set_session]. rewrite Hslot. reflexivity.
Qed.

Lemma snapshot_undoes_unsaved_state_change_witness :
  let a := handleAuthStateChange (Some "u1") 1704169800000 initialApp in
  let unsaved := handleStateChange (Some focus) 1704169800100 1704169800101
                   1704169800102 1704169800999 false a in
  let snap := EvSnapshot (Some (mkCloudDoc (Some "2024-01-02") (Some 100)
                                  (Some 200) None (Some 1704160000000)))
                1704169801000 1704169801500 true true in
  currentState (session unsaved) = Some focus
  /\ step snap unsaved = step snap a.
Proof.
  cbn zeta.
  destruct (snapshot_undoes_unsaved_state_change
              (handleAuthStateChange (Some "u1") 1704169800000 initialApp)
              "u1" ("u1", "2024-01-02")
              (mkCloudDoc (Some "2024-01-02") (Some 100) (Some 200) None
                 (Some 1704160000000))
              (Some focus) 1704169800100 1704169800101 1704169800102
              1704169800999 1704169801000 1704169801500 true true
              eq_refl eq_refl eq_refl) as [Hs Hsame].
  split; [rewrite Hs; reflexivity | exact Hsame].
Defined.
